(** * Cohort identifier: the classification engine

    A shallow embedding of the repository's cohort analysis module
    (the version working on the single [RepositoryAnalysis] table):
    the string normalisers [toNumber], [toBoolean] and [isArchived],
    the weight calculator [calculateMigrationWeight], the reason
    generator [getMigrationReasons], the decision list [assignCohort],
    the per-record drivers [analyzeRepositories] and
    [analyzeRepositoriesDetailed], and the aggregators
    [generateCohortSummaries] and [generateEnterpriseCohortSummaries].
    The CSV exporters and [runCohortAnalysis] format doubles, compare by
    locale and write files; they are not modelled.

    Conventions.
    - A parsed CSV row is a JavaScript object read by property name, so a
      record is a finite map from field names to strings; a property that
      is not there reads as [None] (JavaScript's [undefined]).
    - A JavaScript string is a Rocq [string]; its characters are the code
      units below 256.
    - Weights and counts are mathematical integers.  The source computes
      them as doubles; [parseInt] rounds a very long digit string, which
      keeps its sign and keeps zero apart from non-zero, and that is all
      the engine looks at ([> 0]).  Sums of weights are small integers.
      Average weights are exact quotients; the source holds their double
      values.
    - [CONFIG] is a module-level constant of the source; here the functions
      that read it take it as their first argument, and [CONFIG] is the
      value the source ships. *)

From Stdlib Require Import Ascii ZArith QArith Permutation Sorted.
From stdpp Require Import base gmap strings list pretty.

Local Open Scope string_scope.
Local Open Scope list_scope.
Local Open Scope Z_scope.

(** ** JavaScript string primitives *)

Module JS.

(** A value read from a property: a string, or [undefined]. *)
Definition value := option string.

(** [WhiteSpace] and [LineTerminator] code units below 256:
    TAB, LF, VT, FF, CR, SP and NBSP. *)
Definition isStrWhiteSpaceChar (c : ascii) : bool :=
  let n := N_of_ascii c in
  ((9 <=? n) && (n <=? 13) || (n =? 32) || (n =? 160))%N.

Definition isDigit (c : ascii) : bool :=
  let n := N_of_ascii c in ((48 <=? n) && (n <=? 57))%N.

Definition digitValue (c : ascii) : Z := Z.of_N (N_of_ascii c) - 48.

Fixpoint trimStart (s : string) : string :=
  match s with
  | String c s' => if isStrWhiteSpaceChar c then trimStart s' else s
  | EmptyString => EmptyString
  end.

Fixpoint trimEnd (s : string) : string :=
  match s with
  | String c s' =>
      let t := trimEnd s' in
      if isStrWhiteSpaceChar c && String.eqb t "" then "" else String c t
  | EmptyString => EmptyString
  end.

(** [String.prototype.trim]. *)
Definition trim (s : string) : string := trimEnd (trimStart s).

(** The longest prefix of decimal digits, as digit values. *)
Fixpoint digitsPrefix (s : string) : list Z :=
  match s with
  | String c s' => if isDigit c then digitValue c :: digitsPrefix s' else []
  | EmptyString => []
  end.

Definition mathInt (ds : list Z) : Z :=
  fold_left (fun acc d => 10 * acc + d) ds 0.

(** [parseInt(s, 10)]: leading white space is skipped, one sign is
    read, then the longest run of digits; [None] is [NaN]. *)
Definition parseInt (s : string) : option Z :=
  let input := trimStart s in
  let '(sign, rest) :=
    match input with
    | String "-" r => (-1, r)
    | String "+" r => (1, r)
    | _ => (1, input)
    end in
  match digitsPrefix rest with
  | [] => None
  | ds => Some (sign * mathInt ds)
  end.

(** [v === lit] for a string literal [lit]. *)
Definition strictEq (v : value) (lit : string) : bool :=
  match v with
  | Some s => String.eqb s lit
  | None => false
  end.

(** What a template literal prints for [v]. *)
Definition show (v : value) : string :=
  match v with
  | Some s => s
  | None => "undefined"
  end.

End JS.

(** ** Configuration *)

Record Weights := {
  APP_INSTALLATIONS : Z;
  GIT_LFS_OBJECTS : Z;
  PACKAGES : Z;
  PROJECTS : Z;
  CUSTOM_PROPERTIES : Z;
  RULESETS : Z;
  SECRETS : Z;
  ENVIRONMENTS : Z;
  SELF_HOSTED_RUNNERS : Z;
  WEBHOOKS : Z;
  DISCUSSIONS : Z;
  DEPLOY_KEYS : Z;
  PAGES_CUSTOM_DOMAIN : Z;
  RELEASES_LARGE : Z;
  CODESPACES : Z;
  MAVEN_PACKAGES : Z;
  MACOS_RUNNERS : Z;
  IS_ARCHIVED : Z;
  EXTERNAL_COLLABORATORS : Z;
  UNMIGRATABLE : Z
}.

Record Thresholds := {
  CLEAN_REPO_MAX_WEIGHT : Z;
  LOW_COMPLEXITY_MAX_WEIGHT : Z;
  MEDIUM_COMPLEXITY_MAX_WEIGHT : Z
}.

Record Features := {
  INCLUDE_ARCHIVED_IN_MAIN_ANALYSIS : bool;
  SEPARATE_MAVEN_COHORT : bool;
  SEPARATE_CODESPACE_COHORT : bool;
  SEPARATE_MACOS_COHORT : bool;
  SEPARATE_UNMIGRATABLE_COHORT : bool
}.

Record Config := {
  WEIGHTS : Weights;
  THRESHOLDS : Thresholds;
  FEATURES : Features
}.

Definition CONFIG : Config := {|
  WEIGHTS := {|
    APP_INSTALLATIONS := 15;
    GIT_LFS_OBJECTS := 2;
    PACKAGES := 3;
    PROJECTS := 3;
    CUSTOM_PROPERTIES := 2;
    RULESETS := 3;
    SECRETS := 12;
    ENVIRONMENTS := 3;
    SELF_HOSTED_RUNNERS := 12;
    WEBHOOKS := 10;
    DISCUSSIONS := 2;
    DEPLOY_KEYS := 8;
    PAGES_CUSTOM_DOMAIN := 2;
    RELEASES_LARGE := 7;
    CODESPACES := 25;
    MAVEN_PACKAGES := 25;
    MACOS_RUNNERS := 25;
    IS_ARCHIVED := 1;
    EXTERNAL_COLLABORATORS := 12;
    UNMIGRATABLE := 30
  |};
  THRESHOLDS := {|
    CLEAN_REPO_MAX_WEIGHT := 0;
    LOW_COMPLEXITY_MAX_WEIGHT := 10;
    MEDIUM_COMPLEXITY_MAX_WEIGHT := 25
  |};
  FEATURES := {|
    INCLUDE_ARCHIVED_IN_MAIN_ANALYSIS := false;
    SEPARATE_MAVEN_COHORT := true;
    SEPARATE_CODESPACE_COHORT := true;
    SEPARATE_MACOS_COHORT := true;
    SEPARATE_UNMIGRATABLE_COHORT := false
  |}
|}.

(** ** Records and the normalisers *)

(** A row of the repository analysis table. *)
Abbreviation RepositoryAnalysis := (gmap string string).

(** [isArchived(repo)]. *)
Definition isArchived (repo : RepositoryAnalysis) : bool :=
  JS.strictEq (repo !! "isArchived") "true"
  || JS.strictEq (repo !! "isArchived") "TRUE"
  || JS.strictEq (repo !! "isArchived") "1".

(** [toNumber(value)]: a falsy value ([undefined] or the empty string),
    a blank string, ["null"] and ["undefined"] give 0; so does [NaN].
    The result is the integer the digits denote; the source holds it as a
    double, which is that integer up to 2^53 in absolute value and its
    rounding beyond, with the same sign. *)
Definition toNumber (value : JS.value) : Z :=
  match value with
  | None => 0
  | Some v =>
      if String.eqb v ""
         || String.eqb (JS.trim v) ""
         || String.eqb v "null"
         || String.eqb v "undefined"
      then 0
      else match JS.parseInt v with
           | None => 0
           | Some num => num
           end
  end.

(** [toBoolean(value)]. *)
Definition toBoolean (value : JS.value) : bool :=
  JS.strictEq value "true"
  || JS.strictEq value "TRUE"
  || JS.strictEq value "1"
  || JS.strictEq value "yes"
  || JS.strictEq value "YES".

(** ** Weight calculator *)

(** [if (cond) weight += w]. *)
Definition addWhen (cond : bool) (w : Z) (weight : Z) : Z :=
  if cond then weight + w else weight.

(** [calculateMigrationWeight(repo)]. *)
Definition calculateMigrationWeight (cfg : Config) (repo : RepositoryAnalysis) : Z :=
  let W := WEIGHTS cfg in
  let weight := 0 in
  let weight := addWhen (0 <? toNumber (repo !! "app_installations"))
                  (APP_INSTALLATIONS W) weight in
  let weight := addWhen (0 <? toNumber (repo !! "git-lfs-objects"))
                  (GIT_LFS_OBJECTS W) weight in
  let weight := addWhen (0 <? toNumber (repo !! "repository-packages"))
                  (PACKAGES W) weight in
  let weight := addWhen ((0 <? toNumber (repo !! "projects_linked_to_repo"))
                         || (0 <? toNumber (repo !! "issues_linked_to_projects")))
                  (PROJECTS W) weight in
  let weight := addWhen (0 <? toNumber (repo !! "repository-custom-properties"))
                  (CUSTOM_PROPERTIES W) weight in
  let weight := addWhen (0 <? toNumber (repo !! "repository-rulesets"))
                  (RULESETS W) weight in
  let weight := addWhen ((0 <? toNumber (repo !! "repository-actions-secrets"))
                         || (0 <? toNumber (repo !! "repository-dependabot-secrets")))
                  (SECRETS W) weight in
  let weight := addWhen (0 <? toNumber (repo !! "repository-environments"))
                  (ENVIRONMENTS W) weight in
  let weight := addWhen (0 <? toNumber (repo !! "repository-actions-self-hosted-runners"))
                  (SELF_HOSTED_RUNNERS W) weight in
  let weight := addWhen (0 <? toNumber (repo !! "repository-webhooks"))
                  (WEBHOOKS W) weight in
  let weight := addWhen (0 <? toNumber (repo !! "repository-discussions"))
                  (DISCUSSIONS W) weight in
  let weight := addWhen (0 <? toNumber (repo !! "repository-deploy-keys"))
                  (DEPLOY_KEYS W) weight in
  let weight := addWhen (0 <? toNumber (repo !! "repository-pages-customdomain"))
                  (PAGES_CUSTOM_DOMAIN W) weight in
  let weight := addWhen (0 <? toNumber (repo !! "repository-releases-gt-5gb"))
                  (RELEASES_LARGE W) weight in
  let weight := addWhen (isArchived repo) (IS_ARCHIVED W) weight in
  let weight := addWhen (toBoolean (repo !! "has_external_collaborators"))
                  (EXTERNAL_COLLABORATORS W) weight in
  let weight := addWhen (toBoolean (repo !! "has_unmigratable"))
                  (UNMIGRATABLE W) weight in
  weight.

(** ** Reason generator *)

(** [if (cond) reasons.push(reason)]. *)
Definition pushWhen (cond : bool) (reason : string) (reasons : list string)
  : list string :=
  if cond then reasons ++ [reason] else reasons.

(** [getMigrationReasons(repo)]. *)
Definition getMigrationReasons (repo : RepositoryAnalysis) : list string :=
  let f := fun name => JS.show (repo !! name) in
  let reasons := [] in
  let reasons := pushWhen (0 <? toNumber (repo !! "app_installations"))
    ("App installations (" +:+ f "app_installations" +:+ ")") reasons in
  let reasons := pushWhen (0 <? toNumber (repo !! "git-lfs-objects"))
    ("Git LFS objects (" +:+ f "git-lfs-objects" +:+ ")") reasons in
  let reasons := pushWhen (0 <? toNumber (repo !! "repository-packages"))
    ("Repository packages (" +:+ f "repository-packages" +:+ ")") reasons in
  let reasons := pushWhen ((0 <? toNumber (repo !! "projects_linked_to_repo"))
                           || (0 <? toNumber (repo !! "issues_linked_to_projects")))
    ("Projects linked (repo: " +:+ f "projects_linked_to_repo"
       +:+ ", issues: " +:+ f "issues_linked_to_projects" +:+ ")") reasons in
  let reasons := pushWhen (0 <? toNumber (repo !! "repository-custom-properties"))
    ("Custom properties (" +:+ f "repository-custom-properties" +:+ ")") reasons in
  let reasons := pushWhen (0 <? toNumber (repo !! "repository-rulesets"))
    ("Rulesets (" +:+ f "repository-rulesets" +:+ ")") reasons in
  let reasons := pushWhen ((0 <? toNumber (repo !! "repository-actions-secrets"))
                           || (0 <? toNumber (repo !! "repository-dependabot-secrets")))
    ("Secrets (Actions: " +:+ f "repository-actions-secrets"
       +:+ ", Dependabot: " +:+ f "repository-dependabot-secrets" +:+ ")") reasons in
  let reasons := pushWhen (0 <? toNumber (repo !! "repository-environments"))
    ("Environments (" +:+ f "repository-environments" +:+ ")") reasons in
  let reasons := pushWhen (0 <? toNumber (repo !! "repository-actions-self-hosted-runners"))
    ("Self-hosted runners (" +:+ f "repository-actions-self-hosted-runners" +:+ ")")
    reasons in
  let reasons := pushWhen (0 <? toNumber (repo !! "repository-webhooks"))
    ("Webhooks (" +:+ f "repository-webhooks" +:+ ")") reasons in
  let reasons := pushWhen (0 <? toNumber (repo !! "repository-discussions"))
    ("Discussions (" +:+ f "repository-discussions" +:+ ")") reasons in
  let reasons := pushWhen (0 <? toNumber (repo !! "repository-deploy-keys"))
    ("Deploy keys (" +:+ f "repository-deploy-keys" +:+ ")") reasons in
  let reasons := pushWhen (0 <? toNumber (repo !! "repository-pages-customdomain"))
    ("Pages custom domain (" +:+ f "repository-pages-customdomain" +:+ ")") reasons in
  let reasons := pushWhen (0 <? toNumber (repo !! "repository-releases-gt-5gb"))
    ("Large releases (" +:+ f "repository-releases-gt-5gb" +:+ ")") reasons in
  let reasons := pushWhen (toBoolean (repo !! "has_maven_packages"))
    ("Maven packages (" +:+ f "maven_package_count" +:+ ")") reasons in
  let reasons := pushWhen (toBoolean (repo !! "has_codespaces"))
    ("Codespaces (" +:+ f "codespace_count" +:+ " codespaces, "
       +:+ f "codespace_user_count" +:+ " users)") reasons in
  let reasons := pushWhen (toBoolean (repo !! "has_macos_runners"))
    "macOS runners" reasons in
  let reasons := pushWhen (toBoolean (repo !! "has_external_collaborators"))
    "External collaborators" reasons in
  let reasons := pushWhen (toBoolean (repo !! "has_unmigratable"))
    "Unmigratable features" reasons in
  let reasons := pushWhen (isArchived repo) "Archived repository" reasons in
  reasons.

(** ** Cohort classifier *)

(** [assignCohort(repo, migrationWeight)]: the first step that matches
    returns. *)
Definition assignCohort (cfg : Config) (repo : RepositoryAnalysis)
    (migrationWeight : Z) : string :=
  if SEPARATE_UNMIGRATABLE_COHORT (FEATURES cfg)
     && toBoolean (repo !! "has_unmigratable")
  then "UNMIGRATABLE"
  else if isArchived repo
  then "ARCHIVED"
  else if SEPARATE_MACOS_COHORT (FEATURES cfg)
          && toBoolean (repo !! "has_macos_runners")
  then "MACOS_RUNNERS"
  else if SEPARATE_MAVEN_COHORT (FEATURES cfg)
          && toBoolean (repo !! "has_maven_packages")
  then "MAVEN_PACKAGES"
  else if SEPARATE_CODESPACE_COHORT (FEATURES cfg)
          && toBoolean (repo !! "has_codespaces")
  then "CODESPACES"
  else if migrationWeight <=? CLEAN_REPO_MAX_WEIGHT (THRESHOLDS cfg)
  then "CLEAN"
  else if migrationWeight <=? LOW_COMPLEXITY_MAX_WEIGHT (THRESHOLDS cfg)
  then "LOW_COMPLEXITY"
  else if migrationWeight <=? MEDIUM_COMPLEXITY_MAX_WEIGHT (THRESHOLDS cfg)
  then "MEDIUM_COMPLEXITY"
  else "HIGH_COMPLEXITY".

(** [generateSummary(cohort, reasons, weight)]. *)
Definition generateSummary (cohort : string) (reasons : list string)
    (weight : Z) : string :=
  if String.eqb cohort "UNMIGRATABLE" then
    "Repository has features that cannot be migrated - requires special handling"
  else if String.eqb cohort "ARCHIVED" then
    "Archived repository - lower migration priority"
  else if String.eqb cohort "CLEAN" then
    "Clean repository with no migration blockers - can migrate easily"
  else if String.eqb cohort "MACOS_RUNNERS" then
    "Repository with macOS runners - requires runner migration planning"
  else if String.eqb cohort "MAVEN_PACKAGES" then
    "Repository with Maven packages - requires package migration planning"
  else if String.eqb cohort "CODESPACES" then
    "Repository with Codespaces usage - requires Codespaces migration planning"
  else if String.eqb cohort "LOW_COMPLEXITY" then
    "Low complexity migration (weight: " +:+ pretty weight +:+ ") - "
      +:+ pretty (length reasons) +:+ " minor issues"
  else if String.eqb cohort "MEDIUM_COMPLEXITY" then
    "Medium complexity migration (weight: " +:+ pretty weight +:+ ") - "
      +:+ pretty (length reasons) +:+ " moderate issues"
  else if String.eqb cohort "HIGH_COMPLEXITY" then
    "High complexity migration (weight: " +:+ pretty weight +:+ ") - "
      +:+ pretty (length reasons) +:+ " major issues"
  else "Migration weight: " +:+ pretty weight.

(** ** Feature flags *)

Record FeatureFlags := {
  HAS_APP_INSTALLATIONS : bool;
  HAS_GIT_LFS_OBJECTS : bool;
  HAS_PACKAGES : bool;
  HAS_PROJECTS : bool;
  HAS_CUSTOM_PROPERTIES : bool;
  HAS_RULESETS : bool;
  HAS_SECRETS : bool;
  HAS_ENVIRONMENTS : bool;
  HAS_SELF_HOSTED_RUNNERS : bool;
  HAS_WEBHOOKS : bool;
  HAS_DISCUSSIONS : bool;
  HAS_DEPLOY_KEYS : bool;
  HAS_PAGES_CUSTOM_DOMAIN : bool;
  HAS_RELEASES_LARGE : bool;
  HAS_CODESPACES : bool;
  HAS_MAVEN_PACKAGES : bool;
  HAS_MACOS_RUNNERS : bool;
  HAS_IS_ARCHIVED : bool;
  HAS_EXTERNAL_COLLABORATORS : bool;
  HAS_UNMIGRATABLE : bool
}.

(** [hasFeatureFlags(repo)]. *)
Definition hasFeatureFlags (repo : RepositoryAnalysis) : FeatureFlags := {|
  HAS_APP_INSTALLATIONS := 0 <? toNumber (repo !! "app_installations");
  HAS_GIT_LFS_OBJECTS := 0 <? toNumber (repo !! "git-lfs-objects");
  HAS_PACKAGES := 0 <? toNumber (repo !! "repository-packages");
  HAS_PROJECTS :=
    (0 <? toNumber (repo !! "projects_linked_to_repo"))
    || (0 <? toNumber (repo !! "issues_linked_to_projects"));
  HAS_CUSTOM_PROPERTIES := 0 <? toNumber (repo !! "repository-custom-properties");
  HAS_RULESETS := 0 <? toNumber (repo !! "repository-rulesets");
  HAS_SECRETS :=
    (0 <? toNumber (repo !! "repository-actions-secrets"))
    || (0 <? toNumber (repo !! "repository-dependabot-secrets"));
  HAS_ENVIRONMENTS := 0 <? toNumber (repo !! "repository-environments");
  HAS_SELF_HOSTED_RUNNERS :=
    0 <? toNumber (repo !! "repository-actions-self-hosted-runners");
  HAS_WEBHOOKS := 0 <? toNumber (repo !! "repository-webhooks");
  HAS_DISCUSSIONS := 0 <? toNumber (repo !! "repository-discussions");
  HAS_DEPLOY_KEYS := 0 <? toNumber (repo !! "repository-deploy-keys");
  HAS_PAGES_CUSTOM_DOMAIN :=
    0 <? toNumber (repo !! "repository-pages-customdomain");
  HAS_RELEASES_LARGE := 0 <? toNumber (repo !! "repository-releases-gt-5gb");
  HAS_CODESPACES := toBoolean (repo !! "has_codespaces");
  HAS_MAVEN_PACKAGES := toBoolean (repo !! "has_maven_packages");
  HAS_MACOS_RUNNERS := toBoolean (repo !! "has_macos_runners");
  HAS_IS_ARCHIVED := isArchived repo;
  HAS_EXTERNAL_COLLABORATORS := toBoolean (repo !! "has_external_collaborators");
  HAS_UNMIGRATABLE := toBoolean (repo !! "has_unmigratable")
|}.

(** [countFeatureGaps(repo)]. *)
Definition countFeatureGaps (repo : RepositoryAnalysis) : Z :=
  let count := 0 in
  let count := addWhen (toBoolean (repo !! "has_maven_packages")) 1 count in
  let count := addWhen (toBoolean (repo !! "has_codespaces")) 1 count in
  let count := addWhen (toBoolean (repo !! "has_macos_runners")) 1 count in
  count.

(** ** Per-record results *)

Module CohortResult.
Record t := mk {
  repoName : JS.value;
  orgName : JS.value;
  enterpriseName : JS.value;
  cohort : string;
  migrationWeight : Z;
  reasons : list string;
  summary : string;
  isArchived : bool
}.
End CohortResult.

Module CohortDetail.
(** The [HAS_] flags are spread into the object in the source; they are
    kept together in [flags] here. *)
Record t := mk {
  repositoryName : JS.value;
  organizationName : JS.value;
  enterpriseName : JS.value;
  cohort : string;
  cohortWeight : Z;
  migrationWeight : Z;
  migrationReasons : string;
  summary : string;
  featureGapCount : Z;
  flags : FeatureFlags
}.
End CohortDetail.

(** [LoadedData] of the single-table loader: the interface with the one
    field [repositories], an array of records. *)
Record LoadedData := { repositories : list RepositoryAnalysis }.

(** The body of the loop of [analyzeRepositoriesDetailed]. *)
Definition detailOf (cfg : Config) (repo : RepositoryAnalysis) : CohortDetail.t :=
  let migrationWeight := calculateMigrationWeight cfg repo in
  let migrationReasons := getMigrationReasons repo in
  let cohort := assignCohort cfg repo migrationWeight in
  let summary := generateSummary cohort migrationReasons migrationWeight in
  let featureFlags := hasFeatureFlags repo in
  let featureGapCount := countFeatureGaps repo in
  {| CohortDetail.repositoryName := repo !! "Repo_Name";
     CohortDetail.organizationName := repo !! "Org_Name";
     CohortDetail.enterpriseName := repo !! "Enterprise";
     CohortDetail.cohort := cohort;
     CohortDetail.cohortWeight := migrationWeight;
     CohortDetail.migrationWeight := migrationWeight;
     CohortDetail.migrationReasons := String.concat "; " migrationReasons;
     CohortDetail.summary := summary;
     CohortDetail.featureGapCount := featureGapCount;
     CohortDetail.flags := featureFlags |}.

(** [analyzeRepositoriesDetailed(data)]. *)
Definition analyzeRepositoriesDetailed (cfg : Config) (data : LoadedData)
  : list CohortDetail.t :=
  fold_left (fun results repo => results ++ [detailOf cfg repo])
            (repositories data) [].

(** The body of the loop of [analyzeRepositories]. *)
Definition resultOf (cfg : Config) (repo : RepositoryAnalysis) : CohortResult.t :=
  let migrationWeight := calculateMigrationWeight cfg repo in
  let migrationReasons := getMigrationReasons repo in
  let cohort := assignCohort cfg repo migrationWeight in
  let summary := generateSummary cohort migrationReasons migrationWeight in
  {| CohortResult.repoName := repo !! "Repo_Name";
     CohortResult.orgName := repo !! "Org_Name";
     CohortResult.enterpriseName := repo !! "Enterprise";
     CohortResult.cohort := cohort;
     CohortResult.migrationWeight := migrationWeight;
     CohortResult.reasons := migrationReasons;
     CohortResult.summary := summary;
     CohortResult.isArchived := isArchived repo |}.

(** [analyzeRepositories(data)]: [results] starts empty and every
    iteration pushes one result. *)
Definition analyzeRepositories (cfg : Config) (data : LoadedData)
  : list CohortResult.t :=
  fold_left (fun results repo => results ++ [resultOf cfg repo])
            (repositories data) [].

(** ** Aggregator *)

(** A JavaScript [Map] from cohort names to arrays of results: the
    entries in insertion order, one entry per key. *)
Module CohortMap.

Definition t := list (string * list CohortResult.t).

Definition has (m : t) (key : string) : bool :=
  existsb (fun kv => String.eqb (fst kv) key) m.

(** [m.set(key, v)]: an existing key keeps its place. *)
Fixpoint set (m : t) (key : string) (v : list CohortResult.t) : t :=
  match m with
  | [] => [(key, v)]
  | (k, old) :: m' =>
      if String.eqb k key then (k, v) :: m' else (k, old) :: set m' key v
  end.

(** [m.get(key)!.push(x)]: the array held under [key] grows in place. *)
Fixpoint push (m : t) (key : string) (x : CohortResult.t) : t :=
  match m with
  | [] => []
  | (k, arr) :: m' =>
      if String.eqb k key then (k, arr ++ [x]) :: m'
      else (k, arr) :: push m' key x
  end.

End CohortMap.

Record CohortSummary := {
  cohortName : string;
  repositoryCount : nat;
  totalWeight : Z;
  averageWeight : Q
}.

(** The body of the grouping loop of [generateCohortSummaries]. *)
Definition groupStep (cohortMap : CohortMap.t) (result : CohortResult.t)
  : CohortMap.t :=
  let key := CohortResult.cohort result in
  let cohortMap :=
    if negb (CohortMap.has cohortMap key)
    then CohortMap.set cohortMap key []
    else cohortMap in
  CohortMap.push cohortMap key result.

(** The grouping loop of [generateCohortSummaries]. *)
Definition groupByCohort (results : list CohortResult.t) : CohortMap.t :=
  fold_left groupStep results [].

(** The body of the summarising loop of [generateCohortSummaries]. *)
Definition summaryOf (entry : string * list CohortResult.t) : CohortSummary :=
  let '(cohortName, cohortResults) := entry in
  let repositoryCount := length cohortResults in
  let totalWeight :=
    fold_left (fun sum result => sum + CohortResult.migrationWeight result)
              cohortResults 0 in
  let averageWeight :=
    if (0 <? repositoryCount)%nat
    then Qdiv (inject_Z totalWeight) (inject_Z (Z.of_nat repositoryCount))
    else inject_Z 0 in
  {| cohortName := cohortName;
     repositoryCount := repositoryCount;
     totalWeight := totalWeight;
     averageWeight := averageWeight |}.

(** [Array.prototype.sort] with the comparator
    [(a, b) => b.averageWeight - a.averageWeight]: a stable sort, larger
    averages first. *)
Fixpoint insertSummary (a : CohortSummary) (sorted : list CohortSummary)
  : list CohortSummary :=
  match sorted with
  | [] => [a]
  | b :: rest =>
      if Qle_bool (averageWeight b) (averageWeight a)
      then a :: b :: rest
      else b :: insertSummary a rest
  end.

Definition sortByAverageDesc (summaries : list CohortSummary)
  : list CohortSummary :=
  fold_right insertSummary [] summaries.

(** [generateCohortSummaries(results)]. *)
Definition generateCohortSummaries (results : list CohortResult.t)
  : list CohortSummary :=
  let cohortMap := groupByCohort results in
  let summaries :=
    fold_left (fun summaries entry => summaries ++ [summaryOf entry])
              cohortMap [] in
  sortByAverageDesc summaries.

(** ** The blocker categories

    The categories are the keys of [CONFIG.WEIGHTS]; each has a weight, a
    [HAS_] flag and a reason string. *)

Inductive Category :=
| CatAppInstallations | CatGitLfsObjects | CatPackages | CatProjects
| CatCustomProperties | CatRulesets | CatSecrets | CatEnvironments
| CatSelfHostedRunners | CatWebhooks | CatDiscussions | CatDeployKeys
| CatPagesCustomDomain | CatReleasesLarge | CatCodespaces | CatMavenPackages
| CatMacosRunners | CatIsArchived | CatExternalCollaborators | CatUnmigratable.

(** All categories, in the order of [CONFIG.WEIGHTS]. *)
Definition categories : list Category :=
  [ CatAppInstallations; CatGitLfsObjects; CatPackages; CatProjects;
    CatCustomProperties; CatRulesets; CatSecrets; CatEnvironments;
    CatSelfHostedRunners; CatWebhooks; CatDiscussions; CatDeployKeys;
    CatPagesCustomDomain; CatReleasesLarge; CatCodespaces; CatMavenPackages;
    CatMacosRunners; CatIsArchived; CatExternalCollaborators; CatUnmigratable ].

(** The categories in the order in which [getMigrationReasons] visits
    them. *)
Definition reasonOrder : list Category :=
  [ CatAppInstallations; CatGitLfsObjects; CatPackages; CatProjects;
    CatCustomProperties; CatRulesets; CatSecrets; CatEnvironments;
    CatSelfHostedRunners; CatWebhooks; CatDiscussions; CatDeployKeys;
    CatPagesCustomDomain; CatReleasesLarge; CatMavenPackages; CatCodespaces;
    CatMacosRunners; CatExternalCollaborators; CatUnmigratable; CatIsArchived ].

(** The configured weight of a category. *)
Definition weightOf (W : Weights) (c : Category) : Z :=
  match c with
  | CatAppInstallations => APP_INSTALLATIONS W
  | CatGitLfsObjects => GIT_LFS_OBJECTS W
  | CatPackages => PACKAGES W
  | CatProjects => PROJECTS W
  | CatCustomProperties => CUSTOM_PROPERTIES W
  | CatRulesets => RULESETS W
  | CatSecrets => SECRETS W
  | CatEnvironments => ENVIRONMENTS W
  | CatSelfHostedRunners => SELF_HOSTED_RUNNERS W
  | CatWebhooks => WEBHOOKS W
  | CatDiscussions => DISCUSSIONS W
  | CatDeployKeys => DEPLOY_KEYS W
  | CatPagesCustomDomain => PAGES_CUSTOM_DOMAIN W
  | CatReleasesLarge => RELEASES_LARGE W
  | CatCodespaces => CODESPACES W
  | CatMavenPackages => MAVEN_PACKAGES W
  | CatMacosRunners => MACOS_RUNNERS W
  | CatIsArchived => IS_ARCHIVED W
  | CatExternalCollaborators => EXTERNAL_COLLABORATORS W
  | CatUnmigratable => UNMIGRATABLE W
  end.

(** The [HAS_] flag of a category. *)
Definition flagOf (F : FeatureFlags) (c : Category) : bool :=
  match c with
  | CatAppInstallations => HAS_APP_INSTALLATIONS F
  | CatGitLfsObjects => HAS_GIT_LFS_OBJECTS F
  | CatPackages => HAS_PACKAGES F
  | CatProjects => HAS_PROJECTS F
  | CatCustomProperties => HAS_CUSTOM_PROPERTIES F
  | CatRulesets => HAS_RULESETS F
  | CatSecrets => HAS_SECRETS F
  | CatEnvironments => HAS_ENVIRONMENTS F
  | CatSelfHostedRunners => HAS_SELF_HOSTED_RUNNERS F
  | CatWebhooks => HAS_WEBHOOKS F
  | CatDiscussions => HAS_DISCUSSIONS F
  | CatDeployKeys => HAS_DEPLOY_KEYS F
  | CatPagesCustomDomain => HAS_PAGES_CUSTOM_DOMAIN F
  | CatReleasesLarge => HAS_RELEASES_LARGE F
  | CatCodespaces => HAS_CODESPACES F
  | CatMavenPackages => HAS_MAVEN_PACKAGES F
  | CatMacosRunners => HAS_MACOS_RUNNERS F
  | CatIsArchived => HAS_IS_ARCHIVED F
  | CatExternalCollaborators => HAS_EXTERNAL_COLLABORATORS F
  | CatUnmigratable => HAS_UNMIGRATABLE F
  end.

(** A category is present on a record when its [HAS_] flag is set. *)
Definition present (repo : RepositoryAnalysis) (c : Category) : bool :=
  flagOf (hasFeatureFlags repo) c.

(** The three platform-gap categories. *)
Definition isPlatformGap (c : Category) : bool :=
  match c with
  | CatMavenPackages | CatCodespaces | CatMacosRunners => true
  | _ => false
  end.

(** The categories other than the platform gaps. *)
Definition weightedCategories : list Category :=
  List.filter (fun c => negb (isPlatformGap c)) categories.

(** The sum of the configured weights of the categories of [cs] that are
    present on [repo]. *)
Definition sumPresent (W : Weights) (repo : RepositoryAnalysis)
    (cs : list Category) : Z :=
  fold_right (fun c acc => (if present repo c then weightOf W c else 0) + acc)
             0 cs.

(** The weight as the specification words it: the sum over all present
    categories of the full enumeration. *)
Definition specWeight (cfg : Config) (repo : RepositoryAnalysis) : Z :=
  sumPresent (WEIGHTS cfg) repo categories.

(** The reason string of a category. *)
Definition reasonOf (repo : RepositoryAnalysis) (c : Category) : string :=
  let f := fun name => JS.show (repo !! name) in
  match c with
  | CatAppInstallations => "App installations (" +:+ f "app_installations" +:+ ")"
  | CatGitLfsObjects => "Git LFS objects (" +:+ f "git-lfs-objects" +:+ ")"
  | CatPackages => "Repository packages (" +:+ f "repository-packages" +:+ ")"
  | CatProjects =>
      "Projects linked (repo: " +:+ f "projects_linked_to_repo"
        +:+ ", issues: " +:+ f "issues_linked_to_projects" +:+ ")"
  | CatCustomProperties =>
      "Custom properties (" +:+ f "repository-custom-properties" +:+ ")"
  | CatRulesets => "Rulesets (" +:+ f "repository-rulesets" +:+ ")"
  | CatSecrets =>
      "Secrets (Actions: " +:+ f "repository-actions-secrets"
        +:+ ", Dependabot: " +:+ f "repository-dependabot-secrets" +:+ ")"
  | CatEnvironments => "Environments (" +:+ f "repository-environments" +:+ ")"
  | CatSelfHostedRunners =>
      "Self-hosted runners (" +:+ f "repository-actions-self-hosted-runners" +:+ ")"
  | CatWebhooks => "Webhooks (" +:+ f "repository-webhooks" +:+ ")"
  | CatDiscussions => "Discussions (" +:+ f "repository-discussions" +:+ ")"
  | CatDeployKeys => "Deploy keys (" +:+ f "repository-deploy-keys" +:+ ")"
  | CatPagesCustomDomain =>
      "Pages custom domain (" +:+ f "repository-pages-customdomain" +:+ ")"
  | CatReleasesLarge => "Large releases (" +:+ f "repository-releases-gt-5gb" +:+ ")"
  | CatMavenPackages => "Maven packages (" +:+ f "maven_package_count" +:+ ")"
  | CatCodespaces =>
      "Codespaces (" +:+ f "codespace_count" +:+ " codespaces, "
        +:+ f "codespace_user_count" +:+ " users)"
  | CatMacosRunners => "macOS runners"
  | CatExternalCollaborators => "External collaborators"
  | CatUnmigratable => "Unmigratable features"
  | CatIsArchived => "Archived repository"
  end.


(** The count fields a category reads; empty for a category decided by
    a boolean field. *)
Definition countFields (c : Category) : list string :=
  match c with
  | CatAppInstallations => ["app_installations"]
  | CatGitLfsObjects => ["git-lfs-objects"]
  | CatPackages => ["repository-packages"]
  | CatProjects => ["projects_linked_to_repo"; "issues_linked_to_projects"]
  | CatCustomProperties => ["repository-custom-properties"]
  | CatRulesets => ["repository-rulesets"]
  | CatSecrets => ["repository-actions-secrets"; "repository-dependabot-secrets"]
  | CatEnvironments => ["repository-environments"]
  | CatSelfHostedRunners => ["repository-actions-self-hosted-runners"]
  | CatWebhooks => ["repository-webhooks"]
  | CatDiscussions => ["repository-discussions"]
  | CatDeployKeys => ["repository-deploy-keys"]
  | CatPagesCustomDomain => ["repository-pages-customdomain"]
  | CatReleasesLarge => ["repository-releases-gt-5gb"]
  | CatCodespaces | CatMavenPackages | CatMacosRunners
  | CatIsArchived | CatExternalCollaborators | CatUnmigratable => []
  end.

Definition Category_eq_dec (c c' : Category) : {c = c'} + {c <> c'}.
Proof. decide equality. Defined.

(** A count field that holds no number: missing or empty, ["null"],
    ["undefined"], or a string [parseInt] does not read. *)
Definition malformedCount (v : JS.value) : Prop :=
  v = None \/ v = Some "" \/ v = Some "null" \/ v = Some "undefined"
  \/ exists s, v = Some s /\ JS.parseInt s = None.

(** ** Totals over results and summaries *)

Definition weightSum (results : list CohortResult.t) : Z :=
  fold_right (fun r acc => CohortResult.migrationWeight r + acc) 0 results.

Definition totalCount (summaries : list CohortSummary) : nat :=
  fold_right (fun s acc => (repositoryCount s + acc)%nat) 0%nat summaries.

Definition totalWeightSum (summaries : list CohortSummary) : Z :=
  fold_right (fun s acc => totalWeight s + acc) 0 summaries.

(** The results of cohort [key], in input order. *)
Definition inCohort (key : string) (result : CohortResult.t) : bool :=
  String.eqb (CohortResult.cohort result) key.

(** The entry of cohort [key] over the results [results]. *)
Definition groupEntry (results : list CohortResult.t) (key : string)
  : string * list CohortResult.t :=
  (key, List.filter (inCohort key) results).

(** A cohort name joins the names seen when it is new. *)
Definition seenStep (keys : list string) (result : CohortResult.t) : list string :=
  let key := CohortResult.cohort result in
  if existsb (fun k => String.eqb k key) keys then keys else keys ++ [key].

(** The cohort names of a list of results, each once, in the order of
    first occurrence. *)
Definition cohortsSeen (results : list CohortResult.t) : list string :=
  fold_left seenStep results [].

(** ** Record update *)

(** The record [repo] with its two project counts replaced. *)
Definition withProjects (repo : RepositoryAnalysis) (linkedToRepo issuesLinked : string)
  : RepositoryAnalysis :=
  <[ "projects_linked_to_repo" := linkedToRepo ]>
    (<[ "issues_linked_to_projects" := issuesLinked ]> repo).

(** ** Sample records *)

Module Sample.

(** Only the Maven flag is set. *)
Definition mavenOnly : RepositoryAnalysis :=
  {[ "has_maven_packages" := "true" ]}.

(** Only the unmigratable flag is set. *)
Definition unmigratableOnly : RepositoryAnalysis :=
  {[ "has_unmigratable" := "true" ]}.

(** One webhook: weight 10 under [CONFIG]. *)
Definition webhooksOnly : RepositoryAnalysis :=
  {[ "repository-webhooks" := "1" ]}.

(** Archived, with macOS runners and an app installation. *)
Definition archivedMacos : RepositoryAnalysis :=
  <[ "isArchived" := "true" ]>
    (<[ "has_macos_runners" := "true" ]> {[ "app_installations" := "5" ]}).

(** Both flags spelled ["yes"]. *)
Definition yesFlags : RepositoryAnalysis :=
  <[ "isArchived" := "yes" ]> {[ "has_unmigratable" := "yes" ]}.

(** Three app installations and nothing else. *)
Definition appsOnly : RepositoryAnalysis :=
  {[ "app_installations" := "3" ]}.

(** A count that is not a number. *)
Definition appsGarbled : RepositoryAnalysis :=
  <[ "app_installations" := "n/a" ]> {[ "repository-webhooks" := "2" ]}.

(** A table of three records. *)
Definition table : LoadedData :=
  {| repositories := [archivedMacos; webhooksOnly; mavenOnly] |}.

(** [CONFIG] with the unmigratable cohort switched on. *)
Definition configUnmigratableOn : Config :=
  {| WEIGHTS := WEIGHTS CONFIG;
     THRESHOLDS := THRESHOLDS CONFIG;
     FEATURES :=
       {| INCLUDE_ARCHIVED_IN_MAIN_ANALYSIS := false;
          SEPARATE_MAVEN_COHORT := true;
          SEPARATE_CODESPACE_COHORT := true;
          SEPARATE_MACOS_COHORT := true;
          SEPARATE_UNMIGRATABLE_COHORT := true |} |}.

End Sample.

(** ** The cohort labels *)

(** The labels [assignCohort] returns, in the order of its steps. *)
Definition cohortLabels : list string :=
  [ "UNMIGRATABLE"; "ARCHIVED"; "MACOS_RUNNERS"; "MAVEN_PACKAGES"; "CODESPACES";
    "CLEAN"; "LOW_COMPLEXITY"; "MEDIUM_COMPLEXITY"; "HIGH_COMPLEXITY" ].

(** One of the five categorical steps of [assignCohort] fires. *)
Definition categoricalStep (cfg : Config) (repo : RepositoryAnalysis) : bool :=
  (SEPARATE_UNMIGRATABLE_COHORT (FEATURES cfg)
     && toBoolean (repo !! "has_unmigratable"))
  || isArchived repo
  || (SEPARATE_MACOS_COHORT (FEATURES cfg)
        && toBoolean (repo !! "has_macos_runners"))
  || (SEPARATE_MAVEN_COHORT (FEATURES cfg)
        && toBoolean (repo !! "has_maven_packages"))
  || (SEPARATE_CODESPACE_COHORT (FEATURES cfg)
        && toBoolean (repo !! "has_codespaces")).

(** The platform-gap categories, in the order [countFeatureGaps] visits
    them. *)
Definition gapCategories : list Category :=
  [CatMavenPackages; CatCodespaces; CatMacosRunners].

(** ** Enterprise aggregator *)

(** [v || d] for a string literal [d]: [undefined] and the empty string
    are falsy. *)
Definition orDefault (v : JS.value) (d : string) : string :=
  match v with
  | Some s => if String.eqb s "" then d else s
  | None => d
  end.

(** [result.enterpriseName || "Unknown"]. *)
Definition enterpriseOf (result : CohortResult.t) : string :=
  orDefault (CohortResult.enterpriseName result) "Unknown".

(** The body of a grouping loop over a [Map], with the key of a result
    read by [keyOf]:
    [if (!m.has(key)) m.set(key, []); m.get(key)!.push(result)]. *)
Definition groupStepBy (keyOf : CohortResult.t -> string)
    (m : CohortMap.t) (result : CohortResult.t) : CohortMap.t :=
  let key := keyOf result in
  let m := if negb (CohortMap.has m key) then CohortMap.set m key [] else m in
  CohortMap.push m key result.

(** The results whose key under [keyOf] is [key]. *)
Definition hasKey (keyOf : CohortResult.t -> string) (key : string)
    (result : CohortResult.t) : bool :=
  String.eqb (keyOf result) key.

(** The entry of [key] over the results [results] under [keyOf]. *)
Definition groupEntryBy (keyOf : CohortResult.t -> string)
    (results : list CohortResult.t) (key : string)
  : string * list CohortResult.t :=
  (key, List.filter (hasKey keyOf key) results).

(** A key joins the keys seen when it is new. *)
Definition seenStepBy (keyOf : CohortResult.t -> string)
    (keys : list string) (result : CohortResult.t) : list string :=
  let key := keyOf result in
  if existsb (fun k => String.eqb k key) keys then keys else keys ++ [key].

(** The keys of a list of results under [keyOf], each once, in the order
    of first occurrence. *)
Definition keysSeenBy (keyOf : CohortResult.t -> string)
    (results : list CohortResult.t) : list string :=
  fold_left (seenStepBy keyOf) results [].

(** The grouping loop of [generateEnterpriseCohortSummaries]. *)
Definition groupByEnterprise (results : list CohortResult.t) : CohortMap.t :=
  fold_left (groupStepBy enterpriseOf) results [].

Module EnterpriseCohortSummary.
Record t := mk {
  enterpriseName : string;
  cohortSummaries : list CohortSummary;
  totalRepositories : nat;
  totalWeight : Z;
  averageWeight : Q
}.
End EnterpriseCohortSummary.

(** The body of the summarising loop of
    [generateEnterpriseCohortSummaries]. *)
Definition enterpriseSummaryOf (entry : string * list CohortResult.t)
  : EnterpriseCohortSummary.t :=
  let '(enterpriseName, enterpriseResults) := entry in
  let cohortSummaries := generateCohortSummaries enterpriseResults in
  let totalRepositories := length enterpriseResults in
  let totalWeight :=
    fold_left (fun sum result => sum + CohortResult.migrationWeight result)
              enterpriseResults 0 in
  let averageWeight :=
    if (0 <? totalRepositories)%nat
    then Qdiv (inject_Z totalWeight) (inject_Z (Z.of_nat totalRepositories))
    else inject_Z 0 in
  {| EnterpriseCohortSummary.enterpriseName := enterpriseName;
     EnterpriseCohortSummary.cohortSummaries := cohortSummaries;
     EnterpriseCohortSummary.totalRepositories := totalRepositories;
     EnterpriseCohortSummary.totalWeight := totalWeight;
     EnterpriseCohortSummary.averageWeight := averageWeight |}.

Section EnterpriseSort.

(** [String.prototype.localeCompare] depends on the collation of the
    host; it is a parameter: negative when its first argument sorts
    first. *)
Variable localeCompare : string -> string -> Z.

(** [Array.prototype.sort] with the comparator
    [(a, b) => a.enterpriseName.localeCompare(b.enterpriseName)]: a stable
    sort. *)
Fixpoint insertEnterprise (a : EnterpriseCohortSummary.t)
    (sorted : list EnterpriseCohortSummary.t) : list EnterpriseCohortSummary.t :=
  match sorted with
  | [] => [a]
  | b :: rest =>
      if localeCompare (EnterpriseCohortSummary.enterpriseName a)
                       (EnterpriseCohortSummary.enterpriseName b) <=? 0
      then a :: b :: rest
      else b :: insertEnterprise a rest
  end.

Definition sortByEnterpriseName (summaries : list EnterpriseCohortSummary.t)
  : list EnterpriseCohortSummary.t :=
  fold_right insertEnterprise [] summaries.

(** [generateEnterpriseCohortSummaries(results)]. *)
Definition generateEnterpriseCohortSummaries (results : list CohortResult.t)
  : list EnterpriseCohortSummary.t :=
  let enterpriseMap := groupByEnterprise results in
  let enterpriseSummaries :=
    fold_left (fun summaries entry => summaries ++ [enterpriseSummaryOf entry])
              enterpriseMap [] in
  sortByEnterpriseName enterpriseSummaries.

End EnterpriseSort.

(** Totals over enterprise summaries. *)
Definition enterpriseTotalCount (summaries : list EnterpriseCohortSummary.t) : nat :=
  fold_right (fun e acc => (EnterpriseCohortSummary.totalRepositories e + acc)%nat)
             0%nat summaries.

Definition enterpriseTotalWeight (summaries : list EnterpriseCohortSummary.t) : Z :=
  fold_right (fun e acc => EnterpriseCohortSummary.totalWeight e + acc) 0 summaries.

(** Byte-wise comparison of strings, a sample collation. *)
Definition byteCompare (a b : string) : Z :=
  match String.compare a b with
  | Lt => -1
  | Eq => 0
  | Gt => 1
  end.

(** The order of the summaries: the earlier has the larger average,
    or the same. *)
Definition byAverageDesc (a b : CohortSummary) : Prop :=
  Qle (averageWeight b) (averageWeight a).

(** * Properties *)

(** ** Weight calculator *)

Lemma addWhen_plus (c : bool) (w a : Z) :
  addWhen c w a = a + (if c then w else 0).
Proof. destruct c; simpl; lia. Qed.

Ltac hide_conditionals :=
  repeat match goal with
         | |- context [if ?c then ?w else 0] =>
             generalize (if c then w else 0); intro
         end.

Lemma calculateMigrationWeight_sum (cfg : Config) (repo : RepositoryAnalysis) :
  calculateMigrationWeight cfg repo
  = sumPresent (WEIGHTS cfg) repo weightedCategories.
Proof.
  cbv [calculateMigrationWeight].
  rewrite !addWhen_plus.
  cbv [sumPresent weightedCategories categories List.filter isPlatformGap negb
       fold_right present flagOf hasFeatureFlags weightOf
       HAS_APP_INSTALLATIONS HAS_GIT_LFS_OBJECTS HAS_PACKAGES HAS_PROJECTS
       HAS_CUSTOM_PROPERTIES HAS_RULESETS HAS_SECRETS HAS_ENVIRONMENTS
       HAS_SELF_HOSTED_RUNNERS HAS_WEBHOOKS HAS_DISCUSSIONS HAS_DEPLOY_KEYS
       HAS_PAGES_CUSTOM_DOMAIN HAS_RELEASES_LARGE HAS_CODESPACES
       HAS_MAVEN_PACKAGES HAS_MACOS_RUNNERS HAS_IS_ARCHIVED
       HAS_EXTERNAL_COLLABORATORS HAS_UNMIGRATABLE].
  hide_conditionals. lia.
Qed.

Lemma specWeight_split (cfg : Config) (repo : RepositoryAnalysis) :
  specWeight cfg repo
  = calculateMigrationWeight cfg repo
    + sumPresent (WEIGHTS cfg) repo
        [CatMavenPackages; CatCodespaces; CatMacosRunners].
Proof.
  rewrite calculateMigrationWeight_sum.
  cbv [specWeight sumPresent weightedCategories categories List.filter
       isPlatformGap negb fold_right].
  hide_conditionals. lia.
Qed.

(** C1, as stated, fails: a record whose only present category is Maven
    packages has migration weight 0, while the sum of the configured
    weights over all its present categories is 25. *)
Lemma weight_misses_platform_gaps :
  present Sample.mavenOnly CatMavenPackages = true
  /\ calculateMigrationWeight CONFIG Sample.mavenOnly = 0
  /\ specWeight CONFIG Sample.mavenOnly = 25
  /\ calculateMigrationWeight CONFIG Sample.mavenOnly
     <> specWeight CONFIG Sample.mavenOnly.
Proof. vm_compute. repeat split; discriminate. Qed.

(** C1, amended: the migration weight is the sum of the configured
    weights over the present categories other than the three platform
    gaps (Maven packages, Codespaces, macOS runners); it includes the
    archived flag, external collaborators and the unmigratable flag.  The
    sum over the full enumeration exceeds it by the weights of the present
    platform-gap categories. *)
Theorem weight_sums_non_gap_categories (cfg : Config) (repo : RepositoryAnalysis) :
  calculateMigrationWeight cfg repo
  = sumPresent (WEIGHTS cfg) repo weightedCategories
  /\ weightedCategories
     = [ CatAppInstallations; CatGitLfsObjects; CatPackages; CatProjects;
         CatCustomProperties; CatRulesets; CatSecrets; CatEnvironments;
         CatSelfHostedRunners; CatWebhooks; CatDiscussions; CatDeployKeys;
         CatPagesCustomDomain; CatReleasesLarge; CatIsArchived;
         CatExternalCollaborators; CatUnmigratable ]
  /\ specWeight cfg repo
     = calculateMigrationWeight cfg repo
       + sumPresent (WEIGHTS cfg) repo
           [CatMavenPackages; CatCodespaces; CatMacosRunners].
Proof.
  split; [apply calculateMigrationWeight_sum |].
  split; [reflexivity | apply specWeight_split].
Qed.

(** ** Cohort classifier *)

Ltac split_steps :=
  repeat match goal with
         | |- context [if ?c then _ else _] => destruct c eqn:?
         end.

(** C2, as stated, fails: the configuration that ships has the
    unmigratable toggle off, and a record whose unmigratable flag is
    present is classified by its weight. *)
Lemma unmigratable_toggle_is_off :
  SEPARATE_UNMIGRATABLE_COHORT (FEATURES CONFIG) = false
  /\ toBoolean (Sample.unmigratableOnly !! "has_unmigratable") = true
  /\ assignCohort CONFIG Sample.unmigratableOnly
       (calculateMigrationWeight CONFIG Sample.unmigratableOnly)
     = "HIGH_COMPLEXITY"
  /\ assignCohort CONFIG Sample.unmigratableOnly
       (calculateMigrationWeight CONFIG Sample.unmigratableOnly)
     <> "UNMIGRATABLE".
Proof. vm_compute. repeat split; discriminate. Qed.

(** C2, amended: the first step of the decision list assigns
    UNMIGRATABLE exactly when the unmigratable toggle is on and the
    unmigratable flag is present, whatever the other fields and the weight
    are; the toggle is off in the configuration that ships. *)
Theorem unmigratable_step_first (cfg : Config) (repo : RepositoryAnalysis)
    (migrationWeight : Z) :
  (assignCohort cfg repo migrationWeight = "UNMIGRATABLE"
   <-> SEPARATE_UNMIGRATABLE_COHORT (FEATURES cfg) = true
       /\ toBoolean (repo !! "has_unmigratable") = true)
  /\ SEPARATE_UNMIGRATABLE_COHORT (FEATURES CONFIG) = false.
Proof.
  split; [| reflexivity].
  unfold assignCohort.
  destruct (SEPARATE_UNMIGRATABLE_COHORT (FEATURES cfg));
    destruct (toBoolean (repo !! "has_unmigratable")); simpl;
    split_steps; split; intros H; try discriminate H; try (destruct H; discriminate);
    auto.
Qed.

Lemma unmigratable_step_first_witness :
  assignCohort Sample.configUnmigratableOn Sample.unmigratableOnly 30
  = "UNMIGRATABLE".
Proof.
  apply (unmigratable_step_first Sample.configUnmigratableOn
           Sample.unmigratableOnly 30).
  split; vm_compute; reflexivity.
Defined.

(** The threshold steps, for any configuration whose thresholds are
    strictly ascending around the low-complexity maximum. *)
Lemma threshold_boundary (cfg : Config) (repo : RepositoryAnalysis) :
  SEPARATE_UNMIGRATABLE_COHORT (FEATURES cfg)
    && toBoolean (repo !! "has_unmigratable") = false ->
  isArchived repo = false ->
  SEPARATE_MACOS_COHORT (FEATURES cfg)
    && toBoolean (repo !! "has_macos_runners") = false ->
  SEPARATE_MAVEN_COHORT (FEATURES cfg)
    && toBoolean (repo !! "has_maven_packages") = false ->
  SEPARATE_CODESPACE_COHORT (FEATURES cfg)
    && toBoolean (repo !! "has_codespaces") = false ->
  CLEAN_REPO_MAX_WEIGHT (THRESHOLDS cfg)
    < LOW_COMPLEXITY_MAX_WEIGHT (THRESHOLDS cfg) ->
  LOW_COMPLEXITY_MAX_WEIGHT (THRESHOLDS cfg)
    < MEDIUM_COMPLEXITY_MAX_WEIGHT (THRESHOLDS cfg) ->
  assignCohort cfg repo (LOW_COMPLEXITY_MAX_WEIGHT (THRESHOLDS cfg))
  = "LOW_COMPLEXITY"
  /\ assignCohort cfg repo (LOW_COMPLEXITY_MAX_WEIGHT (THRESHOLDS cfg) + 1)
     = "MEDIUM_COMPLEXITY".
Proof.
  intros H1 H2 H3 H4 H5 Hlo Hmed.
  unfold assignCohort. rewrite H1, H2, H3, H4, H5.
  set (c := CLEAN_REPO_MAX_WEIGHT (THRESHOLDS cfg)) in *.
  set (l := LOW_COMPLEXITY_MAX_WEIGHT (THRESHOLDS cfg)) in *.
  set (m := MEDIUM_COMPLEXITY_MAX_WEIGHT (THRESHOLDS cfg)) in *.
  split.
  - destruct (Z.leb_spec l c); [lia |].
    destruct (Z.leb_spec l l); [reflexivity | lia].
  - destruct (Z.leb_spec (l + 1) c); [lia |].
    destruct (Z.leb_spec (l + 1) l); [lia |].
    destruct (Z.leb_spec (l + 1) m); [reflexivity | lia].
Qed.

(** C4: on a record on which no categorical step fires (step 1 does not
    fire, the record is not archived and has no macOS, Maven or Codespaces
    flag), a weight equal to the low-complexity maximum gives
    LOW_COMPLEXITY and that maximum plus one gives MEDIUM_COMPLEXITY. *)
Theorem low_threshold_boundary (repo : RepositoryAnalysis) (migrationWeight : Z) :
  SEPARATE_UNMIGRATABLE_COHORT (FEATURES CONFIG)
    && toBoolean (repo !! "has_unmigratable") = false ->
  isArchived repo = false ->
  toBoolean (repo !! "has_macos_runners") = false ->
  toBoolean (repo !! "has_maven_packages") = false ->
  toBoolean (repo !! "has_codespaces") = false ->
  (migrationWeight = LOW_COMPLEXITY_MAX_WEIGHT (THRESHOLDS CONFIG) ->
   assignCohort CONFIG repo migrationWeight = "LOW_COMPLEXITY")
  /\ (migrationWeight = LOW_COMPLEXITY_MAX_WEIGHT (THRESHOLDS CONFIG) + 1 ->
      assignCohort CONFIG repo migrationWeight = "MEDIUM_COMPLEXITY").
Proof.
  intros H1 H2 H3 H4 H5.
  destruct (threshold_boundary CONFIG repo) as [Hlow Hmed];
    try assumption;
    try (simpl; rewrite ?H3, ?H4, ?H5; reflexivity);
    try (simpl; lia).
  split; intros ->; assumption.
Qed.

Lemma low_threshold_boundary_witness :
  calculateMigrationWeight CONFIG Sample.webhooksOnly
  = LOW_COMPLEXITY_MAX_WEIGHT (THRESHOLDS CONFIG)
  /\ assignCohort CONFIG Sample.webhooksOnly
       (calculateMigrationWeight CONFIG Sample.webhooksOnly)
     = "LOW_COMPLEXITY"
  /\ assignCohort CONFIG Sample.webhooksOnly 11 = "MEDIUM_COMPLEXITY".
Proof.
  split; [vm_compute; reflexivity |].
  split.
  - apply (low_threshold_boundary Sample.webhooksOnly
             (calculateMigrationWeight CONFIG Sample.webhooksOnly));
      vm_compute; reflexivity.
  - apply (low_threshold_boundary Sample.webhooksOnly 11);
      vm_compute; reflexivity.
Defined.



(** ** Boolean normalisation *)

(** [toBoolean] accepts exactly five spellings. *)
Lemma toBoolean_true_iff (v : JS.value) :
  toBoolean v = true
  <-> v = Some "true" \/ v = Some "TRUE" \/ v = Some "1"
      \/ v = Some "yes" \/ v = Some "YES".
Proof.
  unfold toBoolean, JS.strictEq. destruct v as [s|].
  - rewrite !orb_true_iff, !String.eqb_eq. split.
    + intros [[[[->| ->]| ->]| ->]| ->]; auto 10.
    + intros [H|[H|[H|[H|H]]]]; injection H as ->; auto 10.
  - split; [discriminate |].
    intros [H|[H|[H|[H|H]]]]; discriminate H.
Qed.

(** [isArchived] accepts exactly three spellings. *)
Lemma isArchived_true_iff (repo : RepositoryAnalysis) :
  isArchived repo = true
  <-> repo !! "isArchived" = Some "true"
      \/ repo !! "isArchived" = Some "TRUE"
      \/ repo !! "isArchived" = Some "1".
Proof.
  unfold isArchived, JS.strictEq. destruct (repo !! "isArchived") as [s|].
  - rewrite !orb_true_iff, !String.eqb_eq. split.
    + intros [[->| ->]| ->]; auto.
    + intros [H|[H|H]]; injection H as ->; auto.
  - split; [discriminate |].
    intros [H|[H|H]]; discriminate H.
Qed.

(** C9 on the code: the spelling ["yes"] makes [has_unmigratable] true
    and leaves [isArchived] false, so the record is not treated as
    archived: no archived weight, no archived reason, no ARCHIVED
    cohort. *)
Theorem isArchived_rejects_yes :
  Sample.yesFlags !! "isArchived" = Some "yes"
  /\ Sample.yesFlags !! "has_unmigratable" = Some "yes"
  /\ toBoolean (Sample.yesFlags !! "has_unmigratable") = true
  /\ toBoolean (Sample.yesFlags !! "isArchived") = true
  /\ isArchived Sample.yesFlags = false
  /\ calculateMigrationWeight CONFIG Sample.yesFlags = UNMIGRATABLE (WEIGHTS CONFIG)
  /\ getMigrationReasons Sample.yesFlags = ["Unmigratable features"]
  /\ assignCohort CONFIG Sample.yesFlags
       (calculateMigrationWeight CONFIG Sample.yesFlags) = "HIGH_COMPLEXITY".
Proof. vm_compute. repeat split. Qed.

(** ** Reason generator and feature flags *)

Lemma pushWhen_app (c : bool) (s : string) (l : list string) :
  pushWhen c s l = l ++ (if c then [s] else []).
Proof. destruct c; simpl; [reflexivity | symmetry; apply app_nil_r]. Qed.

Lemma map_filter_concat {A B : Type} (g : A -> B) (f : A -> bool) (l : list A) :
  map g (List.filter f l)
  = concat (map (fun x => if f x then [g x] else []) l).
Proof.
  induction l as [|x l IH]; simpl; [reflexivity |].
  destruct (f x); simpl; rewrite IH; reflexivity.
Qed.


(** The reasons are those of the present categories, in the order of
    [reasonOrder]. *)
Lemma getMigrationReasons_filter (repo : RepositoryAnalysis) :
  getMigrationReasons repo
  = map (reasonOf repo) (List.filter (present repo) reasonOrder).
Proof.
  rewrite map_filter_concat.
  cbv [getMigrationReasons]. rewrite !pushWhen_app.
  cbv [reasonOrder map concat]. rewrite app_nil_r.
  cbv [present flagOf hasFeatureFlags reasonOf
       HAS_APP_INSTALLATIONS HAS_GIT_LFS_OBJECTS HAS_PACKAGES HAS_PROJECTS
       HAS_CUSTOM_PROPERTIES HAS_RULESETS HAS_SECRETS HAS_ENVIRONMENTS
       HAS_SELF_HOSTED_RUNNERS HAS_WEBHOOKS HAS_DISCUSSIONS HAS_DEPLOY_KEYS
       HAS_PAGES_CUSTOM_DOMAIN HAS_RELEASES_LARGE HAS_CODESPACES
       HAS_MAVEN_PACKAGES HAS_MACOS_RUNNERS HAS_IS_ARCHIVED
       HAS_EXTERNAL_COLLABORATORS HAS_UNMIGRATABLE].
  rewrite <- !app_assoc. reflexivity.
Qed.


Lemma in_reasonOrder (c : Category) : In c reasonOrder.
Proof. destruct c; simpl; tauto. Qed.

(** Distinct categories have distinct reason strings. *)
Lemma reasonOf_inj (repo : RepositoryAnalysis) (c c' : Category) :
  reasonOf repo c = reasonOf repo c' -> c = c'.
Proof.
  destruct c, c'; intros H; try reflexivity; simpl in H; discriminate H.
Qed.

Lemma reason_emitted_iff (repo : RepositoryAnalysis) (c : Category) :
  In (reasonOf repo c) (getMigrationReasons repo) <-> present repo c = true.
Proof.
  rewrite getMigrationReasons_filter, in_map_iff. split.
  - intros (c' & Heq & Hin). apply reasonOf_inj in Heq. subst c'.
    apply filter_In in Hin. tauto.
  - intros H. exists c. split; [reflexivity |].
    apply filter_In. split; [apply in_reasonOrder | exact H].
Qed.


(** ** The projects category *)

Lemma withProjects_lookup (repo : RepositoryAnalysis) (x y k : string) :
  withProjects repo x y !! k
  = if String.eqb k "projects_linked_to_repo" then Some x
    else if String.eqb k "issues_linked_to_projects" then Some y
    else repo !! k.
Proof.
  unfold withProjects.
  destruct (String.eqb_spec k "projects_linked_to_repo") as [->|H1].
  - apply lookup_insert_eq.
  - rewrite lookup_insert_ne by congruence.
    destruct (String.eqb_spec k "issues_linked_to_projects") as [->|H2].
    + apply lookup_insert_eq.
    + apply lookup_insert_ne. congruence.
Qed.

Lemma isArchived_withProjects (repo : RepositoryAnalysis) (x y : string) :
  isArchived (withProjects repo x y) = isArchived repo.
Proof. unfold isArchived. rewrite withProjects_lookup. reflexivity. Qed.

(** The weight of a record is the weight of the record without project
    counts, plus the projects weight when one of the counts is positive. *)
Lemma weight_withProjects (cfg : Config) (repo : RepositoryAnalysis) (x y : string) :
  calculateMigrationWeight cfg (withProjects repo x y)
  = calculateMigrationWeight cfg (withProjects repo "" "")
    + (if (0 <? toNumber (Some x)) || (0 <? toNumber (Some y))
       then PROJECTS (WEIGHTS cfg) else 0).
Proof.
  cbv [calculateMigrationWeight]. rewrite !addWhen_plus.
  rewrite !isArchived_withProjects, !withProjects_lookup.
  cbn [String.eqb Ascii.eqb Bool.eqb].
  change (toNumber (Some "")) with 0.
  change ((0 <? 0) || (0 <? 0)) with false. cbv iota.
  hide_conditionals. lia.
Qed.

(** C7: the projects category adds its weight once, whether one or both
    of the two counts are positive: two records that differ only in their
    project counts, each with a positive count, have the same weight, which
    is the weight without project counts plus the projects weight. *)
Theorem projects_weight_once (cfg : Config) (repo : RepositoryAnalysis)
    (a b a' b' : string) :
  (0 < toNumber (Some a) \/ 0 < toNumber (Some b)) ->
  (0 < toNumber (Some a') \/ 0 < toNumber (Some b')) ->
  calculateMigrationWeight cfg (withProjects repo a b)
  = calculateMigrationWeight cfg (withProjects repo a' b')
  /\ calculateMigrationWeight cfg (withProjects repo a b)
     = calculateMigrationWeight cfg (withProjects repo "" "")
       + PROJECTS (WEIGHTS cfg).
Proof.
  intros H H'.
  assert (E : (0 <? toNumber (Some a)) || (0 <? toNumber (Some b)) = true).
  { apply orb_true_iff. rewrite !Z.ltb_lt. exact H. }
  assert (E' : (0 <? toNumber (Some a')) || (0 <? toNumber (Some b')) = true).
  { apply orb_true_iff. rewrite !Z.ltb_lt. exact H'. }
  rewrite (weight_withProjects cfg repo a b), (weight_withProjects cfg repo a' b').
  rewrite E, E'. split; reflexivity.
Qed.

Lemma projects_weight_once_witness :
  calculateMigrationWeight CONFIG (withProjects Sample.appsOnly "4" "2")
  = calculateMigrationWeight CONFIG (withProjects Sample.appsOnly "4" "0")
  /\ calculateMigrationWeight CONFIG (withProjects Sample.appsOnly "4" "2")
     = calculateMigrationWeight CONFIG (withProjects Sample.appsOnly "" "")
       + PROJECTS (WEIGHTS CONFIG).
Proof.
  apply (projects_weight_once CONFIG Sample.appsOnly "4" "2" "4" "0");
    left; vm_compute; reflexivity.
Defined.

(** ** Totality and normalisation *)

Lemma sumPresent_nonneg (W : Weights) (repo : RepositoryAnalysis)
    (cs : list Category) :
  (forall c, In c cs -> 0 <= weightOf W c) -> 0 <= sumPresent W repo cs.
Proof.
  induction cs as [|c cs IH]; simpl; intros H; [lia |].
  assert (0 <= weightOf W c) by (apply H; left; reflexivity).
  assert (0 <= sumPresent W repo cs) by (apply IH; intros; apply H; right; assumption).
  unfold sumPresent in *. destruct (present repo c); lia.
Qed.

(** With non-negative configured weights the weight is non-negative. *)
Lemma weight_nonneg (cfg : Config) (repo : RepositoryAnalysis) :
  (forall c, 0 <= weightOf (WEIGHTS cfg) c) ->
  0 <= calculateMigrationWeight cfg repo.
Proof.
  intros H. rewrite calculateMigrationWeight_sum.
  apply sumPresent_nonneg. intros c _. apply H.
Qed.

Lemma CONFIG_weights_nonneg (c : Category) : 0 <= weightOf (WEIGHTS CONFIG) c.
Proof. destruct c; simpl; lia. Qed.

Lemma toNumber_malformed (v : JS.value) : malformedCount v -> toNumber v = 0.
Proof.
  intros [->|[->|[->|[->|(s & -> & Hs)]]]]; try reflexivity.
  unfold toNumber. rewrite Hs.
  destruct (_ || _); reflexivity.
Qed.

Lemma absent_when_counts_zero (repo : RepositoryAnalysis) (c : Category) :
  countFields c <> [] ->
  (forall f, In f (countFields c) -> toNumber (repo !! f) = 0) ->
  present repo c = false.
Proof.
  intros Hne H.
  destruct c; simpl in Hne; try congruence;
    cbv [present flagOf hasFeatureFlags
         HAS_APP_INSTALLATIONS HAS_GIT_LFS_OBJECTS HAS_PACKAGES HAS_PROJECTS
         HAS_CUSTOM_PROPERTIES HAS_RULESETS HAS_SECRETS HAS_ENVIRONMENTS
         HAS_SELF_HOSTED_RUNNERS HAS_WEBHOOKS HAS_DISCUSSIONS HAS_DEPLOY_KEYS
         HAS_PAGES_CUSTOM_DOMAIN HAS_RELEASES_LARGE];
    rewrite !H by (simpl; auto); reflexivity.
Qed.

Lemma sumPresent_absent (W : Weights) (repo : RepositoryAnalysis)
    (c : Category) (cs : list Category) :
  present repo c = false ->
  sumPresent W repo cs = sumPresent W repo (remove Category_eq_dec c cs).
Proof.
  intros Hc. induction cs as [|c' cs IH]; simpl; [reflexivity |].
  unfold sumPresent in *.
  destruct (Category_eq_dec c c') as [<-|Hne]; simpl.
  - rewrite Hc. lia.
  - rewrite IH. reflexivity.
Qed.

(** C8: the weight is defined on every record (the functions of the
    embedding are total, and a missing field reads as [undefined]) and is
    at least 0; a count field that is missing, empty, ["null"],
    ["undefined"] or not a number normalises to 0, and a category whose
    count fields are all so is absent and adds nothing to the weight. *)
Theorem weight_total_nonneg (repo : RepositoryAnalysis) :
  (exists w : Z, calculateMigrationWeight CONFIG repo = w /\ 0 <= w)
  /\ (forall v : JS.value, malformedCount v -> toNumber v = 0)
  /\ (forall (cfg : Config) (c : Category),
        countFields c <> [] ->
        (forall f, In f (countFields c) -> malformedCount (repo !! f)) ->
        present repo c = false
        /\ calculateMigrationWeight cfg repo
           = sumPresent (WEIGHTS cfg) repo
               (remove Category_eq_dec c weightedCategories)).
Proof.
  split.
  { eexists. split; [reflexivity |].
    apply weight_nonneg, CONFIG_weights_nonneg. }
  split; [apply toNumber_malformed |].
  intros cfg c Hne Hmal.
  assert (Habs : present repo c = false).
  { apply absent_when_counts_zero; [exact Hne |].
    intros f Hf. apply toNumber_malformed, Hmal, Hf. }
  split; [exact Habs |].
  rewrite calculateMigrationWeight_sum. apply sumPresent_absent, Habs.
Qed.

Lemma weight_total_nonneg_witness :
  present Sample.appsGarbled CatAppInstallations = false
  /\ calculateMigrationWeight CONFIG Sample.appsGarbled
     = sumPresent (WEIGHTS CONFIG) Sample.appsGarbled
         (remove Category_eq_dec CatAppInstallations weightedCategories).
Proof.
  apply (weight_total_nonneg Sample.appsGarbled).
  - discriminate.
  - intros f [<-|[]]. right; right; right; right.
    exists "n/a". split; vm_compute; reflexivity.
Defined.

(** ** Aggregator *)

Section Grouping.

Implicit Types (m : CohortMap.t) (key : string) (x : CohortResult.t).

Lemma has_set m key v : CohortMap.has (CohortMap.set m key v) key = true.
Proof.
  induction m as [|[k old] m IH]; simpl.
  - rewrite String.eqb_refl. reflexivity.
  - destruct (String.eqb k key) eqn:E; simpl; rewrite ?E; [reflexivity |].
    exact IH.
Qed.

Lemma contents_set_fresh m key :
  CohortMap.has m key = false ->
  concat (map snd (CohortMap.set m key [])) = concat (map snd m).
Proof.
  induction m as [|[k old] m IH]; simpl; [reflexivity |].
  destruct (String.eqb k key); simpl; [discriminate |].
  intros H. rewrite IH by exact H. reflexivity.
Qed.

Lemma contents_push m key x :
  CohortMap.has m key = true ->
  Permutation (concat (map snd (CohortMap.push m key x)))
              (x :: concat (map snd m)).
Proof.
  induction m as [|[k arr] m IH]; simpl; [discriminate |].
  destruct (String.eqb k key); simpl; intros H.
  - rewrite <- app_assoc. simpl.
    symmetry. apply Permutation_middle.
  - rewrite (IH H). symmetry. apply Permutation_middle.
Qed.

(** One iteration of the grouping loop files the result in one group. *)
Lemma group_step m x :
  Permutation (concat (map snd (groupStep m x))) (x :: concat (map snd m)).
Proof.
  unfold groupStep. cbv zeta.
  destruct (CohortMap.has m (CohortResult.cohort x)) eqn:E; simpl.
  - apply contents_push, E.
  - rewrite contents_push by apply has_set.
    rewrite contents_set_fresh by exact E. reflexivity.
Qed.

Lemma group_loop (results : list CohortResult.t) m :
  Permutation (concat (map snd (fold_left groupStep results m)))
              (concat (map snd m) ++ results).
Proof.
  revert m. induction results as [|x results IH]; intros m; simpl.
  - rewrite app_nil_r. reflexivity.
  - rewrite IH, group_step.
    apply (Permutation_middle (concat (map snd m)) results x).
Qed.

End Grouping.

(** The groups hold the input results, each once. *)
Lemma groupByCohort_partition (results : list CohortResult.t) :
  Permutation (concat (map snd (groupByCohort results))) results.
Proof. unfold groupByCohort. rewrite group_loop. reflexivity. Qed.

Lemma fold_left_push_map {A B : Type} (f : A -> B) (l : list A) (acc : list B) :
  fold_left (fun acc x => acc ++ [f x]) l acc = acc ++ map f l.
Proof.
  revert acc. induction l as [|x l IH]; intros acc; simpl.
  - symmetry. apply app_nil_r.
  - rewrite IH, <- app_assoc. reflexivity.
Qed.

Lemma fold_left_weight (rs : list CohortResult.t) (acc : Z) :
  fold_left (fun sum result => sum + CohortResult.migrationWeight result) rs acc
  = acc + weightSum rs.
Proof.
  revert acc. induction rs as [|r rs IH]; intros acc; simpl; [lia |].
  rewrite IH. lia.
Qed.

Lemma weightSum_app (l1 l2 : list CohortResult.t) :
  weightSum (l1 ++ l2) = weightSum l1 + weightSum l2.
Proof. induction l1 as [|r l1 IH]; simpl; [reflexivity | rewrite IH; lia]. Qed.

Lemma weightSum_perm (l1 l2 : list CohortResult.t) :
  Permutation l1 l2 -> weightSum l1 = weightSum l2.
Proof. induction 1; simpl; lia. Qed.

Lemma totalCount_perm (l1 l2 : list CohortSummary) :
  Permutation l1 l2 -> totalCount l1 = totalCount l2.
Proof. induction 1; simpl; lia. Qed.

Lemma totalWeightSum_perm (l1 l2 : list CohortSummary) :
  Permutation l1 l2 -> totalWeightSum l1 = totalWeightSum l2.
Proof. induction 1; simpl; lia. Qed.

Lemma summaries_totals (m : CohortMap.t) :
  totalCount (map summaryOf m) = length (concat (map snd m))
  /\ totalWeightSum (map summaryOf m) = weightSum (concat (map snd m)).
Proof.
  induction m as [|[k arr] m [IHc IHw]]; simpl; [split; reflexivity |].
  rewrite IHc, IHw, length_app, weightSum_app, fold_left_weight.
  split; [reflexivity | lia].
Qed.

Lemma insertSummary_perm (a : CohortSummary) (l : list CohortSummary) :
  Permutation (insertSummary a l) (a :: l).
Proof.
  induction l as [|b l IH]; simpl; [reflexivity |].
  destruct (Qle_bool _ _); [reflexivity |].
  rewrite IH. apply perm_swap.
Qed.

(** Sorting reorders the summaries and changes none. *)
Lemma sortByAverageDesc_perm (l : list CohortSummary) :
  Permutation (sortByAverageDesc l) l.
Proof.
  induction l as [|a l IH]; simpl; [reflexivity |].
  rewrite insertSummary_perm, IH. reflexivity.
Qed.

Lemma generateCohortSummaries_perm (results : list CohortResult.t) :
  Permutation (generateCohortSummaries results)
              (map summaryOf (groupByCohort results)).
Proof.
  unfold generateCohortSummaries.
  rewrite sortByAverageDesc_perm.
  rewrite (fold_left_push_map summaryOf (groupByCohort results) []).
  reflexivity.
Qed.

(** *** The groups, cohort by cohort *)

Section Groups.

Implicit Types (rs : list CohortResult.t) (ks : list string).

Lemma existsb_eqb_In ks (k : string) :
  existsb (fun k' => String.eqb k' k) ks = true <-> In k ks.
Proof.
  rewrite existsb_exists. split.
  - intros (k' & Hin & Heq). apply String.eqb_eq in Heq. subst. exact Hin.
  - intros Hin. exists k. split; [exact Hin | apply String.eqb_refl].
Qed.

Lemma has_entries rs ks (k : string) :
  CohortMap.has (map (groupEntry rs) ks) k = existsb (fun k' => String.eqb k' k) ks.
Proof.
  unfold CohortMap.has.
  induction ks as [|k0 ks IH]; simpl; [reflexivity | rewrite IH; reflexivity].
Qed.

Lemma set_fresh (m : CohortMap.t) (k : string) (v : list CohortResult.t) :
  CohortMap.has m k = false -> CohortMap.set m k v = m ++ [(k, v)].
Proof.
  induction m as [|[k0 old] m IH]; simpl; [reflexivity |].
  destruct (String.eqb k0 k); simpl; [discriminate |].
  intros H. rewrite IH by exact H. reflexivity.
Qed.

Lemma filter_snoc rs (k : string) (x : CohortResult.t) :
  List.filter (inCohort k) (rs ++ [x])
  = List.filter (inCohort k) rs ++ (if inCohort k x then [x] else []).
Proof. rewrite List.filter_app. simpl. destruct (inCohort k x); reflexivity. Qed.

Lemma inCohort_self (x : CohortResult.t) :
  inCohort (CohortResult.cohort x) x = true.
Proof. apply String.eqb_refl. Qed.

Lemma inCohort_other (k : string) (x : CohortResult.t) :
  k <> CohortResult.cohort x -> inCohort k x = false.
Proof. intros H. apply String.eqb_neq. congruence. Qed.

Lemma entry_other rs (k : string) (x : CohortResult.t) :
  k <> CohortResult.cohort x -> groupEntry (rs ++ [x]) k = groupEntry rs k.
Proof.
  intros Hne. unfold groupEntry. rewrite filter_snoc.
  rewrite (inCohort_other k x Hne), app_nil_r. reflexivity.
Qed.

Lemma push_entries rs ks (x : CohortResult.t) :
  NoDup ks ->
  In (CohortResult.cohort x) ks ->
  CohortMap.push (map (groupEntry rs) ks) (CohortResult.cohort x) x
  = map (groupEntry (rs ++ [x])) ks.
Proof.
  induction ks as [|k0 ks IH]; intros Hnd Hin; [destruct Hin |].
  inversion Hnd as [|? ? Hk0 Hnd']; subst. simpl.
  destruct (String.eqb_spec k0 (CohortResult.cohort x)) as [E|Hne].
  - f_equal.
    + subst k0. unfold groupEntry. rewrite filter_snoc, inCohort_self. reflexivity.
    + apply map_ext_in. intros k Hk. symmetry. apply entry_other.
      intros ->. apply Hk0, list_elem_of_In. rewrite E. exact Hk.
  - f_equal.
    + fold (groupEntry rs k0). symmetry. apply entry_other, Hne.
    + apply IH; [exact Hnd' |]. destruct Hin as [E|Hin]; [congruence | exact Hin].
Qed.

Lemma step_entries rs ks (x : CohortResult.t) :
  NoDup ks ->
  (forall r, In r rs -> In (CohortResult.cohort r) ks) ->
  groupStep (map (groupEntry rs) ks) x = map (groupEntry (rs ++ [x])) (seenStep ks x)
  /\ NoDup (seenStep ks x)
  /\ (forall r, In r (rs ++ [x]) -> In (CohortResult.cohort r) (seenStep ks x)).
Proof.
  intros Hnd Hcov. unfold groupStep, seenStep. cbv zeta. rewrite has_entries.
  destruct (existsb _ ks) eqn:E; simpl.
  - apply existsb_eqb_In in E.
    split; [apply push_entries; assumption |].
    split; [exact Hnd |].
    intros r Hr. apply in_app_or in Hr. destruct Hr as [Hr|[<-|[]]]; auto.
  - assert (Hfresh : ~ In (CohortResult.cohort x) ks).
    { intros Hin. apply existsb_eqb_In in Hin. congruence. }
    assert (Hnd' : NoDup (ks ++ [CohortResult.cohort x])).
    { apply NoDup_app. split; [exact Hnd |]. split.
      - intros k Hk Hk'. apply list_elem_of_In in Hk, Hk'.
        destruct Hk' as [<-|[]]. contradiction.
      - apply NoDup_singleton. }
    assert (Hempty : List.filter (inCohort (CohortResult.cohort x)) rs = []).
    { clear -Hcov Hfresh. induction rs as [|r rs IH]; simpl; [reflexivity |].
      rewrite inCohort_other.
      - apply IH. intros r' Hr'. apply Hcov. right. exact Hr'.
      - intros E. apply Hfresh. rewrite E. apply Hcov. left. reflexivity. }
    split.
    + rewrite set_fresh by (rewrite has_entries; exact E).
      replace (map (groupEntry rs) ks ++ [(CohortResult.cohort x, [])])
        with (map (groupEntry rs) (ks ++ [CohortResult.cohort x])).
      * apply push_entries; [exact Hnd' |]. apply in_or_app. right. left. reflexivity.
      * rewrite map_app. simpl. unfold groupEntry at 2. rewrite Hempty. reflexivity.
    + split; [exact Hnd' |].
      intros r Hr. apply in_or_app. apply in_app_or in Hr.
      destruct Hr as [Hr|[<-|[]]]; [left; auto | right; left; reflexivity].
Qed.

Lemma loop_entries (l : list CohortResult.t) rs ks :
  NoDup ks ->
  (forall r, In r rs -> In (CohortResult.cohort r) ks) ->
  fold_left groupStep l (map (groupEntry rs) ks)
  = map (groupEntry (rs ++ l)) (fold_left seenStep l ks)
  /\ NoDup (fold_left seenStep l ks).
Proof.
  revert rs ks. induction l as [|x l IH]; intros rs ks Hnd Hcov; simpl.
  - rewrite app_nil_r. split; [reflexivity | exact Hnd].
  - destruct (step_entries rs ks x Hnd Hcov) as (Hstep & Hnd' & Hcov').
    rewrite Hstep.
    replace (rs ++ x :: l) with ((rs ++ [x]) ++ l)
      by (rewrite <- app_assoc; reflexivity).
    apply IH; assumption.
Qed.

(** The map built by the grouping loop has one entry per cohort seen, in
    the order of first occurrence, holding the results of that cohort in
    input order. *)
Lemma groupByCohort_entries rs :
  groupByCohort rs
  = map (fun k => (k, List.filter (inCohort k) rs)) (cohortsSeen rs)
  /\ NoDup (cohortsSeen rs).
Proof.
  destruct (loop_entries rs [] []) as [H Hnd];
    [apply NoDup_nil_2 | intros r [] |].
  split; [exact H | exact Hnd].
Qed.

End Groups.

(** Every summary is the summary of one cohort of the input: the cohort
    names are distinct, and a summary counts the results of its cohort and
    adds up their weights. *)
Lemma summaries_by_cohort (results : list CohortResult.t) :
  Permutation (map cohortName (generateCohortSummaries results))
              (cohortsSeen results)
  /\ NoDup (map cohortName (generateCohortSummaries results))
  /\ (forall s, In s (generateCohortSummaries results) ->
        repositoryCount s
        = length (List.filter (inCohort (cohortName s)) results)
        /\ totalWeight s
           = weightSum (List.filter (inCohort (cohortName s)) results)).
Proof.
  pose proof (generateCohortSummaries_perm results) as Hp.
  destruct (groupByCohort_entries results) as [Hg Hnd].
  rewrite Hg, map_map in Hp.
  assert (Hnames : Permutation (map cohortName (generateCohortSummaries results))
                               (cohortsSeen results)).
  { rewrite Hp, map_map. simpl. rewrite map_id. reflexivity. }
  split; [exact Hnames |].
  split.
  - apply NoDup_ListNoDup. rewrite Hnames. apply NoDup_ListNoDup, Hnd.
  - intros s Hs.
    apply (Permutation_in _ Hp) in Hs. apply in_map_iff in Hs.
    destruct Hs as (k & <- & _). simpl.
    rewrite fold_left_weight. split; [reflexivity | lia].
Qed.

(** C6: for every list of results, the cohort summaries partition the
    input: the repository counts of the summaries add up to the number of
    results and their total weights add up to the sum of the migration
    weights of the results; there is one summary per cohort, and it counts
    the results of its cohort and adds up their weights. *)
Theorem summaries_partition_totals (results : list CohortResult.t) :
  totalCount (generateCohortSummaries results) = length results
  /\ totalWeightSum (generateCohortSummaries results) = weightSum results
  /\ NoDup (map cohortName (generateCohortSummaries results))
  /\ (forall s, In s (generateCohortSummaries results) ->
        repositoryCount s
        = length (List.filter (inCohort (cohortName s)) results)
        /\ totalWeight s
           = weightSum (List.filter (inCohort (cohortName s)) results)).
Proof.
  destruct (summaries_totals (groupByCohort results)) as [Hc Hw].
  pose proof (generateCohortSummaries_perm results) as Hp.
  pose proof (groupByCohort_partition results) as Hg.
  split.
  { rewrite (totalCount_perm _ _ Hp), Hc. apply Permutation_length, Hg. }
  split.
  { rewrite (totalWeightSum_perm _ _ Hp), Hw. apply weightSum_perm, Hg. }
  apply summaries_by_cohort.
Qed.

Lemma summaries_partition_totals_witness :
  totalCount
    (generateCohortSummaries (analyzeRepositories CONFIG Sample.table)) = 3%nat
  /\ totalWeightSum
       (generateCohortSummaries (analyzeRepositories CONFIG Sample.table)) = 26.
Proof.
  destruct (summaries_partition_totals (analyzeRepositories CONFIG Sample.table))
    as (Hc & Hw & _).
  split; [exact Hc | exact Hw].
Defined.

(** ** Determinism *)

(** The loop of [analyzeRepositories] produces one result per record, in
    order, each from its own record. *)
Lemma analyzeRepositories_map (cfg : Config) (data : LoadedData) :
  analyzeRepositories cfg data = map (resultOf cfg) (repositories data).
Proof.
  unfold analyzeRepositories.
  apply (fold_left_push_map (resultOf cfg) (repositories data) []).
Qed.

(** C10: two runs of [analyzeRepositories] on equal configurations and
    equal record sets give equal result lists, record for record: the
    result at each position is the one computed from the record at that
    position, with its cohort, weight, reasons and summary; the cohort
    summaries of the two runs are equal too. *)
Theorem analysis_deterministic (cfg1 cfg2 : Config) (data1 data2 : LoadedData) :
  cfg1 = cfg2 ->
  data1 = data2 ->
  analyzeRepositories cfg1 data1 = analyzeRepositories cfg2 data2
  /\ length (analyzeRepositories cfg1 data1) = length (repositories data1)
  /\ (forall (i : nat) (repo : RepositoryAnalysis),
        repositories data1 !! i = Some repo ->
        analyzeRepositories cfg1 data1 !! i = Some (resultOf cfg1 repo)
        /\ analyzeRepositories cfg2 data2 !! i = Some (resultOf cfg1 repo))
  /\ generateCohortSummaries (analyzeRepositories cfg1 data1)
     = generateCohortSummaries (analyzeRepositories cfg2 data2).
Proof.
  intros <- <-. rewrite analyzeRepositories_map.
  split; [reflexivity |].
  split; [apply length_map |].
  split; [| reflexivity].
  intros i repo Hi. rewrite list_lookup_fmap, Hi. split; reflexivity.
Qed.

Lemma analysis_deterministic_witness :
  analyzeRepositories CONFIG Sample.table = analyzeRepositories CONFIG Sample.table
  /\ length (analyzeRepositories CONFIG Sample.table) = 3%nat.
Proof.
  destruct (analysis_deterministic CONFIG CONFIG Sample.table Sample.table)
    as (Hruns & Hlen & _); [reflexivity | reflexivity |].
  split; [exact Hruns | exact Hlen].
Defined.

(** ** The engine on sample records *)

Example toNumber_skips_blanks : toNumber (Some " 42abc") = 42.
Proof. reflexivity. Qed.

Example toNumber_negative : toNumber (Some "-7") = -7.
Proof. reflexivity. Qed.

Example toNumber_not_a_number : toNumber (Some "abc") = 0.
Proof. reflexivity. Qed.

Example archivedMacos_result :
  resultOf CONFIG Sample.archivedMacos
  = {| CohortResult.repoName := None;
       CohortResult.orgName := None;
       CohortResult.enterpriseName := None;
       CohortResult.cohort := "ARCHIVED";
       CohortResult.migrationWeight := 16;
       CohortResult.reasons :=
         ["App installations (5)"; "macOS runners"; "Archived repository"];
       CohortResult.summary := "Archived repository - lower migration priority";
       CohortResult.isArchived := true |}.
Proof. vm_compute. reflexivity. Qed.

Example table_summaries :
  map (fun s => (cohortName s, repositoryCount s, totalWeight s))
      (generateCohortSummaries (analyzeRepositories CONFIG Sample.table))
  = [("ARCHIVED", 1%nat, 16); ("LOW_COMPLEXITY", 1%nat, 10);
     ("MAVEN_PACKAGES", 1%nat, 0)].
Proof. vm_compute. reflexivity. Qed.

(** * Further properties of the engine *)

(** ** The decision list *)

Ltac decide_steps cfg repo :=
  unfold assignCohort, categoricalStep;
  destruct (SEPARATE_UNMIGRATABLE_COHORT (FEATURES cfg)
            && toBoolean (repo !! "has_unmigratable"));
  destruct (isArchived repo);
  destruct (SEPARATE_MACOS_COHORT (FEATURES cfg)
            && toBoolean (repo !! "has_macos_runners"));
  destruct (SEPARATE_MAVEN_COHORT (FEATURES cfg)
            && toBoolean (repo !! "has_maven_packages"));
  destruct (SEPARATE_CODESPACE_COHORT (FEATURES cfg)
            && toBoolean (repo !! "has_codespaces"));
  simpl.

(** X1: whatever the configuration, the record and the weight,
    [assignCohort] returns one of the nine cohort labels. *)
Theorem assignCohort_label (cfg : Config) (repo : RepositoryAnalysis)
    (migrationWeight : Z) :
  In (assignCohort cfg repo migrationWeight) cohortLabels.
Proof.
  unfold assignCohort, cohortLabels.
  split_steps; simpl; tauto.
Qed.

(** X2: a categorical label is given exactly to the records on which its
    step fires and no earlier step does: ARCHIVED to archived records that
    step 1 leaves, MACOS_RUNNERS to records with the macOS step and neither
    of those, MAVEN_PACKAGES next, CODESPACES last. *)
Theorem categorical_labels (cfg : Config) (repo : RepositoryAnalysis)
    (migrationWeight : Z) :
  let unmigratable := SEPARATE_UNMIGRATABLE_COHORT (FEATURES cfg)
                      && toBoolean (repo !! "has_unmigratable") in
  let macos := SEPARATE_MACOS_COHORT (FEATURES cfg)
               && toBoolean (repo !! "has_macos_runners") in
  let maven := SEPARATE_MAVEN_COHORT (FEATURES cfg)
               && toBoolean (repo !! "has_maven_packages") in
  let codespaces := SEPARATE_CODESPACE_COHORT (FEATURES cfg)
                    && toBoolean (repo !! "has_codespaces") in
  (assignCohort cfg repo migrationWeight = "ARCHIVED"
   <-> unmigratable = false /\ isArchived repo = true)
  /\ (assignCohort cfg repo migrationWeight = "MACOS_RUNNERS"
      <-> unmigratable = false /\ isArchived repo = false /\ macos = true)
  /\ (assignCohort cfg repo migrationWeight = "MAVEN_PACKAGES"
      <-> unmigratable = false /\ isArchived repo = false /\ macos = false
          /\ maven = true)
  /\ (assignCohort cfg repo migrationWeight = "CODESPACES"
      <-> unmigratable = false /\ isArchived repo = false /\ macos = false
          /\ maven = false /\ codespaces = true).
Proof.
  cbv zeta. decide_steps cfg repo;
    split_steps;
    repeat split; intros; try discriminate; intuition discriminate.
Qed.

(** CLEAN is the label of the records no categorical step takes and
    whose weight does not exceed the clean maximum. *)
Lemma assignCohort_clean (cfg : Config) (repo : RepositoryAnalysis) (w : Z) :
  assignCohort cfg repo w = "CLEAN"
  <-> categoricalStep cfg repo = false
      /\ w <= CLEAN_REPO_MAX_WEIGHT (THRESHOLDS cfg).
Proof.
  decide_steps cfg repo;
    try (split; intros; try discriminate; intuition discriminate);
    destruct (Z.leb_spec w (CLEAN_REPO_MAX_WEIGHT (THRESHOLDS cfg)));
    [ split; auto |].
  split_steps; split; intros; try discriminate; lia.
Qed.

(** X3: a threshold label is given exactly to the records no categorical
    step takes, by the first threshold the weight does not exceed: CLEAN up
    to the clean maximum, LOW_COMPLEXITY above it and up to the low
    maximum, MEDIUM_COMPLEXITY above both and up to the medium maximum,
    HIGH_COMPLEXITY above all three.  No order of the thresholds is
    assumed. *)
Theorem threshold_labels (cfg : Config) (repo : RepositoryAnalysis)
    (migrationWeight : Z) :
  let clean := CLEAN_REPO_MAX_WEIGHT (THRESHOLDS cfg) in
  let low := LOW_COMPLEXITY_MAX_WEIGHT (THRESHOLDS cfg) in
  let medium := MEDIUM_COMPLEXITY_MAX_WEIGHT (THRESHOLDS cfg) in
  (assignCohort cfg repo migrationWeight = "CLEAN"
   <-> categoricalStep cfg repo = false /\ migrationWeight <= clean)
  /\ (assignCohort cfg repo migrationWeight = "LOW_COMPLEXITY"
      <-> categoricalStep cfg repo = false
          /\ clean < migrationWeight <= low)
  /\ (assignCohort cfg repo migrationWeight = "MEDIUM_COMPLEXITY"
      <-> categoricalStep cfg repo = false
          /\ clean < migrationWeight /\ low < migrationWeight <= medium)
  /\ (assignCohort cfg repo migrationWeight = "HIGH_COMPLEXITY"
      <-> categoricalStep cfg repo = false
          /\ clean < migrationWeight /\ low < migrationWeight
          /\ medium < migrationWeight).
Proof.
  cbv zeta. decide_steps cfg repo;
    try (repeat split; intros; try discriminate; intuition discriminate);
    destruct (Z.leb_spec migrationWeight (CLEAN_REPO_MAX_WEIGHT (THRESHOLDS cfg)));
    destruct (Z.leb_spec migrationWeight
                (LOW_COMPLEXITY_MAX_WEIGHT (THRESHOLDS cfg)));
    destruct (Z.leb_spec migrationWeight
                (MEDIUM_COMPLEXITY_MAX_WEIGHT (THRESHOLDS cfg)));
    repeat split; intros; try discriminate; try lia;
    intuition (try discriminate; try lia).
Qed.

(** ** Weight, reasons and cohort together *)

Lemma sumPresent_upper (W : Weights) (repo : RepositoryAnalysis)
    (cs : list Category) :
  (forall c, In c cs -> 0 <= weightOf W c) ->
  sumPresent W repo cs <= fold_right (fun c acc => weightOf W c + acc) 0 cs.
Proof.
  induction cs as [|c cs IH]; simpl; intros H; [lia |].
  assert (0 <= weightOf W c) by (apply H; left; reflexivity).
  assert (Hcs : forall c', In c' cs -> 0 <= weightOf W c')
    by (intros; apply H; right; assumption).
  specialize (IH Hcs). unfold sumPresent in *.
  destruct (present repo c); lia.
Qed.

Lemma sumPresent_none (W : Weights) (repo : RepositoryAnalysis)
    (cs : list Category) :
  (forall c, In c cs -> present repo c = false) -> sumPresent W repo cs = 0.
Proof.
  induction cs as [|c cs IH]; simpl; intros H; [reflexivity |].
  unfold sumPresent in *.
  rewrite (H c) by (left; reflexivity).
  rewrite IH by (intros; apply H; right; assumption). reflexivity.
Qed.

Lemma sumPresent_nonpos (W : Weights) (repo : RepositoryAnalysis)
    (cs : list Category) :
  (forall c, In c cs -> 0 < weightOf W c) ->
  sumPresent W repo cs <= 0 ->
  forall c, In c cs -> present repo c = false.
Proof.
  induction cs as [|c0 cs IH]; simpl; intros Hpos Hle c Hc; [destruct Hc |].
  assert (Hcs : forall c', In c' cs -> 0 < weightOf W c')
    by (intros; apply Hpos; right; assumption).
  assert (H0 : 0 < weightOf W c0) by (apply Hpos; left; reflexivity).
  assert (Hnn : 0 <= sumPresent W repo cs).
  { apply sumPresent_nonneg. intros c' Hc'. specialize (Hcs c' Hc'). lia. }
  unfold sumPresent in *.
  destruct (present repo c0) eqn:E0; [lia |].
  destruct Hc as [<-|Hc]; [exact E0 |].
  apply IH; [exact Hcs | lia | exact Hc].
Qed.

(** X4: with non-negative configured weights the migration weight is
    at most the sum of the weights of the seventeen weighted categories;
    with positive weights it is 0 exactly when none of them is present. *)
Theorem weight_bounds (cfg : Config) (repo : RepositoryAnalysis) :
  (forall c, In c weightedCategories -> 0 < weightOf (WEIGHTS cfg) c) ->
  0 <= calculateMigrationWeight cfg repo
       <= fold_right (fun c acc => weightOf (WEIGHTS cfg) c + acc)
                     0 weightedCategories
  /\ (calculateMigrationWeight cfg repo = 0
      <-> forall c, In c weightedCategories -> present repo c = false).
Proof.
  intros Hpos. rewrite calculateMigrationWeight_sum.
  assert (Hnn : forall c, In c weightedCategories -> 0 <= weightOf (WEIGHTS cfg) c).
  { intros c Hc. specialize (Hpos c Hc). lia. }
  split; [split |].
  - apply sumPresent_nonneg, Hnn.
  - apply sumPresent_upper, Hnn.
  - split.
    + intros H0. apply (sumPresent_nonpos (WEIGHTS cfg)); [exact Hpos | lia].
    + apply sumPresent_none.
Qed.

Lemma CONFIG_weights_pos (c : Category) : 0 < weightOf (WEIGHTS CONFIG) c.
Proof. destruct c; simpl; lia. Qed.

Lemma weight_bounds_witness :
  0 <= calculateMigrationWeight CONFIG Sample.archivedMacos <= 127.
Proof.
  apply (weight_bounds CONFIG Sample.archivedMacos).
  intros c _. apply CONFIG_weights_pos.
Defined.

Lemma filter_none {A : Type} (f : A -> bool) (l : list A) :
  (forall x, In x l -> f x = false) -> List.filter f l = [].
Proof.
  induction l as [|x l IH]; simpl; intros H; [reflexivity |].
  rewrite (H x) by (left; reflexivity).
  apply IH. intros; apply H; right; assumption.
Qed.

Lemma no_reasons_iff (repo : RepositoryAnalysis) :
  getMigrationReasons repo = [] <-> forall c, present repo c = false.
Proof.
  split.
  - intros Hnil c. destruct (present repo c) eqn:E; [| reflexivity].
    apply reason_emitted_iff in E. rewrite Hnil in E. destruct E.
  - intros H. rewrite getMigrationReasons_filter, filter_none; [reflexivity |].
    intros c _. apply H.
Qed.

Lemma in_weightedCategories (c : Category) :
  isPlatformGap c = false -> In c weightedCategories.
Proof. destruct c; simpl; intros H; try discriminate H; tauto. Qed.

Lemma categoricalStep_CONFIG (repo : RepositoryAnalysis) :
  categoricalStep CONFIG repo
  = present repo CatIsArchived || present repo CatMacosRunners
    || present repo CatMavenPackages || present repo CatCodespaces.
Proof. reflexivity. Qed.

(** X5: under the configuration that ships, a record is CLEAN exactly
    when it has no reason at all: no category is present on it, platform
    gaps and archived flag included. *)
Theorem clean_iff_no_reasons (repo : RepositoryAnalysis) :
  CohortResult.cohort (resultOf CONFIG repo) = "CLEAN"
  <-> CohortResult.reasons (resultOf CONFIG repo) = [].
Proof.
  cbn [resultOf CohortResult.cohort CohortResult.reasons].
  rewrite assignCohort_clean, no_reasons_iff, categoricalStep_CONFIG.
  change (CLEAN_REPO_MAX_WEIGHT (THRESHOLDS CONFIG)) with 0.
  split.
  - intros [Hcat Hw] c.
    apply orb_false_iff in Hcat as [Hcat Hcs].
    apply orb_false_iff in Hcat as [Hcat Hmv].
    apply orb_false_iff in Hcat as [Har Hmac].
    destruct (isPlatformGap c) eqn:Hgap.
    + destruct c; try discriminate Hgap; assumption.
    + apply (sumPresent_nonpos (WEIGHTS CONFIG) repo weightedCategories).
      * intros c' _. apply CONFIG_weights_pos.
      * rewrite <- calculateMigrationWeight_sum. exact Hw.
      * apply in_weightedCategories, Hgap.
  - intros H. split.
    + rewrite !H. reflexivity.
    + rewrite calculateMigrationWeight_sum, sumPresent_none; [lia |].
      intros c _. apply H.
Qed.

(** ** Summary sentences *)

(** X6: the fallback sentence of [generateSummary] is never produced
    for a label of [assignCohort]: every result carries one of the nine
    cohort sentences. *)
Theorem summary_never_fallback (cfg : Config) (repo : RepositoryAnalysis) :
  CohortResult.summary (resultOf cfg repo)
  <> "Migration weight: " +:+ pretty (CohortResult.migrationWeight (resultOf cfg repo)).
Proof.
  cbn [resultOf CohortResult.summary CohortResult.migrationWeight].
  generalize (getMigrationReasons repo) as reasons.
  generalize (calculateMigrationWeight cfg repo) at 2 3 as w.
  generalize (calculateMigrationWeight cfg repo) as w0.
  intros w0 w reasons.
  assert (Hlabel : In (assignCohort cfg repo w0) cohortLabels)
    by (unfold assignCohort, cohortLabels; split_steps; simpl; tauto).
  unfold cohortLabels in Hlabel. simpl in Hlabel.
  destruct Hlabel as [<-|[<-|[<-|[<-|[<-|[<-|[<-|[<-|[<-|[]]]]]]]]]];
    simpl; intros H; discriminate H.
Qed.

(** ** Platform gaps *)

Lemma in_gap_labels (cfg : Config) (repo : RepositoryAnalysis) (w : Z) :
  categoricalStep cfg repo = true ->
  In (assignCohort cfg repo w)
     ["UNMIGRATABLE"; "ARCHIVED"; "MACOS_RUNNERS"; "MAVEN_PACKAGES"; "CODESPACES"].
Proof.
  decide_steps cfg repo; intros H; try discriminate H; tauto.
Qed.

(** X7: [countFeatureGaps] is the number of platform-gap categories
    present on the record, between 0 and 3; under the configuration that
    ships, a record with a platform gap is never classified by its weight:
    its cohort is ARCHIVED or one of the three platform cohorts. *)
Theorem feature_gaps_counted (repo : RepositoryAnalysis) (migrationWeight : Z) :
  countFeatureGaps repo
  = Z.of_nat (length (List.filter (present repo) gapCategories))
  /\ 0 <= countFeatureGaps repo <= 3
  /\ (0 < countFeatureGaps repo ->
      In (assignCohort CONFIG repo migrationWeight)
         ["ARCHIVED"; "MACOS_RUNNERS"; "MAVEN_PACKAGES"; "CODESPACES"]).
Proof.
  assert (Hcount : countFeatureGaps repo
                   = Z.of_nat (length (List.filter (present repo) gapCategories))).
  { cbv [countFeatureGaps gapCategories List.filter]. rewrite !addWhen_plus.
    change (present repo CatMavenPackages)
      with (toBoolean (repo !! "has_maven_packages")).
    change (present repo CatCodespaces)
      with (toBoolean (repo !! "has_codespaces")).
    change (present repo CatMacosRunners)
      with (toBoolean (repo !! "has_macos_runners")).
    destruct (toBoolean (repo !! "has_maven_packages"));
      destruct (toBoolean (repo !! "has_codespaces"));
      destruct (toBoolean (repo !! "has_macos_runners")); reflexivity. }
  split; [exact Hcount |].
  split.
  - rewrite Hcount. pose proof (List.filter_length_le (present repo) gapCategories) as Hle.
    change (length gapCategories) with 3%nat in Hle. lia.
  - intros Hpos.
    assert (Hstep : categoricalStep CONFIG repo = true).
    { rewrite categoricalStep_CONFIG. rewrite Hcount in Hpos.
      cbv [gapCategories List.filter] in Hpos.
      destruct (present repo CatMavenPackages);
        destruct (present repo CatCodespaces);
        destruct (present repo CatMacosRunners);
        rewrite ?orb_true_r; try reflexivity.
      simpl in Hpos. lia. }
    pose proof (in_gap_labels CONFIG repo migrationWeight Hstep) as Hin.
    destruct Hin as [Hun|Hin]; [| exact Hin].
    exfalso. revert Hun. unfold assignCohort. simpl.
    split_steps; discriminate.
Qed.

Lemma feature_gaps_counted_witness :
  In (assignCohort CONFIG Sample.mavenOnly 0)
     ["ARCHIVED"; "MACOS_RUNNERS"; "MAVEN_PACKAGES"; "CODESPACES"].
Proof.
  apply (feature_gaps_counted Sample.mavenOnly 0).
  vm_compute. reflexivity.
Defined.

(** ** The two drivers *)

Lemma analyzeRepositoriesDetailed_map (cfg : Config) (data : LoadedData) :
  analyzeRepositoriesDetailed cfg data = map (detailOf cfg) (repositories data).
Proof.
  unfold analyzeRepositoriesDetailed.
  apply (fold_left_push_map (detailOf cfg) (repositories data) []).
Qed.

(** X8: the detailed and the simple analysis of a table agree record
    for record: same names, cohort, weight and summary; the detailed
    reasons are the simple reasons joined by ["; "], the cohort weight is
    the migration weight, the archived flag is the simple result's
    [isArchived], and the feature-gap count is the count over the record. *)
Theorem detailed_agrees_with_simple (cfg : Config) (data : LoadedData) :
  map (fun d => (CohortDetail.repositoryName d, CohortDetail.organizationName d,
                 CohortDetail.enterpriseName d, CohortDetail.cohort d,
                 CohortDetail.migrationWeight d, CohortDetail.cohortWeight d,
                 CohortDetail.migrationReasons d, CohortDetail.summary d,
                 HAS_IS_ARCHIVED (CohortDetail.flags d)))
      (analyzeRepositoriesDetailed cfg data)
  = map (fun r => (CohortResult.repoName r, CohortResult.orgName r,
                   CohortResult.enterpriseName r, CohortResult.cohort r,
                   CohortResult.migrationWeight r, CohortResult.migrationWeight r,
                   String.concat "; " (CohortResult.reasons r),
                   CohortResult.summary r, CohortResult.isArchived r))
        (analyzeRepositories cfg data)
  /\ map CohortDetail.featureGapCount (analyzeRepositoriesDetailed cfg data)
     = map countFeatureGaps (repositories data)
  /\ map CohortDetail.flags (analyzeRepositoriesDetailed cfg data)
     = map hasFeatureFlags (repositories data).
Proof.
  rewrite analyzeRepositoriesDetailed_map, analyzeRepositories_map.
  rewrite !map_map. repeat split.
Qed.

(** ** The reason list *)

Lemma reasonOrder_NoDup : List.NoDup reasonOrder.
Proof.
  unfold reasonOrder.
  repeat (constructor; [simpl; intuition discriminate |]).
  constructor.
Qed.

(** X9: the reasons of a record are pairwise different and at most
    twenty, and they come in the fixed order of the generator: the list is
    the list of reason strings of the present categories, filtered from
    that order. *)
Theorem reasons_distinct (repo : RepositoryAnalysis) :
  NoDup (getMigrationReasons repo)
  /\ (length (getMigrationReasons repo) <= 20)%nat
  /\ sublist (getMigrationReasons repo) (map (reasonOf repo) reasonOrder).
Proof.
  rewrite getMigrationReasons_filter. split; [| split].
  - apply NoDup_ListNoDup.
    apply Finite.Injective_map_NoDup.
    + intros c c'. apply reasonOf_inj.
    + apply List.NoDup_filter, reasonOrder_NoDup.
  - rewrite length_map.
    pose proof (List.filter_length_le (present repo) reasonOrder) as H.
    exact H.
  - induction reasonOrder as [|c l IH]; simpl; [constructor |].
    destruct (present repo c); simpl;
      [apply sublist_skip | apply sublist_cons]; exact IH.
Qed.

(** ** Reading decimal numbers *)

Lemma isDigit_cases (c : ascii) :
  JS.isDigit c = true ->
  c = "0"%char \/ c = "1"%char \/ c = "2"%char \/ c = "3"%char \/ c = "4"%char
  \/ c = "5"%char \/ c = "6"%char \/ c = "7"%char \/ c = "8"%char \/ c = "9"%char.
Proof.
  destruct c as [[] [] [] [] [] [] [] []]; intros H; try discriminate H; tauto.
Qed.

Ltac eval_char_tests :=
  repeat match goal with
         | |- context [JS.isStrWhiteSpaceChar (Ascii ?a ?b ?c ?d ?e ?f ?g ?h)] =>
             let v := eval vm_compute in
                        (JS.isStrWhiteSpaceChar (Ascii a b c d e f g h)) in
             change (JS.isStrWhiteSpaceChar (Ascii a b c d e f g h)) with v
         | |- context [JS.isDigit (Ascii ?a ?b ?c ?d ?e ?f ?g ?h)] =>
             let v := eval vm_compute in (JS.isDigit (Ascii a b c d e f g h)) in
             change (JS.isDigit (Ascii a b c d e f g h)) with v
         end.

Ltac read_head :=
  unfold toNumber, JS.trim, JS.parseInt;
  repeat (progress
            (cbn [JS.trimStart JS.trimEnd JS.digitsPrefix String.eqb Ascii.eqb
                  Bool.eqb andb orb];
             eval_char_tests)).

(** A string that starts with a digit is read as its leading digits. *)
Lemma toNumber_digit_head (c : ascii) (r : string) :
  JS.isDigit c = true ->
  toNumber (Some (String c r)) = JS.mathInt (JS.digitValue c :: JS.digitsPrefix r).
Proof.
  intros H. apply isDigit_cases in H.
  destruct H as [->|[->|[->|[->|[->|[->|[->|[->|[->| ->]]]]]]]]];
    read_head; rewrite Z.mul_1_l; reflexivity.
Qed.

(** A minus sign before a digit negates the leading digits. *)
Lemma toNumber_minus_digit_head (c : ascii) (r : string) :
  JS.isDigit c = true ->
  toNumber (Some (String "-" (String c r)))
  = - JS.mathInt (JS.digitValue c :: JS.digitsPrefix r).
Proof.
  intros H. apply isDigit_cases in H.
  destruct H as [->|[->|[->|[->|[->|[->|[->|[->|[->| ->]]]]]]]]];
    read_head; lia.
Qed.

Lemma pretty_N_char_digit (x : N) :
  (x < 10)%N ->
  JS.isDigit (pretty_N_char x) = true
  /\ JS.digitValue (pretty_N_char x) = Z.of_N x.
Proof.
  intros H.
  assert (x = 0 \/ x = 1 \/ x = 2 \/ x = 3 \/ x = 4 \/ x = 5 \/ x = 6
          \/ x = 7 \/ x = 8 \/ x = 9)%N
    as [->|[->|[->|[->|[->|[->|[->|[->|[->| ->]]]]]]]]] by lia;
    split; reflexivity.
Qed.

(** The digits printed for [x] in front of [s] read back as [x], carried
    into the digits of [s]. *)
Lemma pretty_N_go_digits (x : N) (s : string) :
  fold_left (fun acc d => 10 * acc + d) (JS.digitsPrefix (pretty_N_go x s)) 0
  = fold_left (fun acc d => 10 * acc + d) (JS.digitsPrefix s) (Z.of_N x).
Proof.
  revert s. induction (N.lt_wf_0 x) as [x _ IH]. intros s.
  destruct (N.eq_dec x 0%N) as [->|Hx].
  - rewrite pretty_N_go_0. reflexivity.
  - rewrite pretty_N_go_step by lia.
    rewrite IH by (apply N.div_lt; lia).
    destruct (pretty_N_char_digit (x mod 10)%N) as [Hd Hv];
      [apply N.mod_lt; lia |].
    cbn [JS.digitsPrefix]. rewrite Hd. cbn [fold_left]. rewrite Hv.
    f_equal. pose proof (N.div_mod x 10%N). lia.
Qed.

Lemma pretty_N_go_head (x : N) (s : string) :
  (0 < x)%N ->
  exists c r, pretty_N_go x s = String c r /\ JS.isDigit c = true.
Proof.
  revert s. induction (N.lt_wf_0 x) as [x _ IH]. intros s Hx.
  rewrite pretty_N_go_step by exact Hx.
  destruct (N.eq_dec (x / 10)%N 0%N) as [E|Hne].
  - rewrite E, pretty_N_go_0. eexists _, _. split; [reflexivity |].
    apply pretty_N_char_digit, N.mod_lt. lia.
  - apply IH; [apply N.div_lt; lia | apply N.neq_0_lt_0, Hne].
Qed.

Lemma pretty_N_go_app (x : N) (s1 s2 : string) :
  pretty_N_go x (s1 +:+ s2) = pretty_N_go x s1 +:+ s2.
Proof.
  revert s1. induction (N.lt_wf_0 x) as [x _ IH]. intros s1.
  destruct (N.eq_dec x 0%N) as [->|Hx].
  - rewrite !pretty_N_go_0. reflexivity.
  - rewrite (pretty_N_go_step x (s1 +:+ s2)), (pretty_N_go_step x s1) by lia.
    apply (IH (x / 10)%N ltac:(apply N.div_lt; lia)
              (String (pretty_N_char (x mod 10)%N) s1)).
Qed.

(** A natural number in decimal notation, followed by text that does
    not start with a digit, starts with a digit and reads back. *)
Lemma pretty_N_read (n : N) (junk : string) :
  JS.digitsPrefix junk = [] ->
  exists c r,
    pretty n +:+ junk = String c r
    /\ JS.isDigit c = true
    /\ JS.mathInt (JS.digitValue c :: JS.digitsPrefix r) = Z.of_N n.
Proof.
  intros Hjunk. unfold pretty, pretty_N.
  destruct (decide (n = 0%N)) as [->|Hn].
  - exists "0"%char, junk. cbn. rewrite Hjunk. repeat split.
  - destruct (pretty_N_go_head n junk) as (c & r & Hgo & Hc); [lia |].
    exists c, r. rewrite <- pretty_N_go_app. cbn [String.app]. 
    split; [exact Hgo |]. split; [exact Hc |].
    pose proof (pretty_N_go_digits n junk) as Hd.
    rewrite Hgo, Hjunk in Hd. cbn [JS.digitsPrefix] in Hd. rewrite Hc in Hd.
    exact Hd.
Qed.

(** In the model, where numbers are exact, every decimal integer reads
    back. *)
Lemma toNumber_reads_decimal (z : Z) (junk : string) :
  JS.digitsPrefix junk = [] ->
  toNumber (Some (pretty z +:+ junk)) = z.
Proof.
  intros Hjunk. destruct z as [|p|p]; unfold pretty, pretty_Z.
  - destruct (pretty_N_read 0 junk Hjunk) as (c & r & Heq & Hc & Hv).
    change ("0" +:+ junk) with (pretty 0%N +:+ junk).
    rewrite Heq, toNumber_digit_head by exact Hc. exact Hv.
  - destruct (pretty_N_read (Npos p) junk Hjunk) as (c & r & Heq & Hc & Hv).
    change (pretty p) with (pretty (Npos p)).
    rewrite Heq, toNumber_digit_head by exact Hc. exact Hv.
  - destruct (pretty_N_read (Npos p) junk Hjunk) as (c & r & Heq & Hc & Hv).
    change (("-" +:+ pretty p) +:+ junk)
      with (String "-" (pretty (Npos p) +:+ junk)).
    rewrite Heq, toNumber_minus_digit_head by exact Hc. rewrite Hv. reflexivity.
Qed.

(** X10: an integer of absolute value at most 2^53, written in decimal
    notation, is read back exactly, also when text that does not start
    with a digit follows it: a count field [12] or [12 files] counts 12.
    The bound is the range in which the double of the source is the
    integer itself; beyond it the source rounds. *)
Theorem toNumber_decimal (z : Z) (junk : string) :
  Z.abs z <= 9007199254740992 ->
  JS.digitsPrefix junk = [] ->
  toNumber (Some (pretty z +:+ junk)) = z.
Proof.
  intros _ Hjunk. apply toNumber_reads_decimal, Hjunk.
Qed.

Lemma toNumber_decimal_witness : toNumber (Some (pretty 12 +:+ " files")) = 12.
Proof.
  apply (toNumber_decimal 12 " files"); [simpl; lia | reflexivity].
Defined.

(** ** The summary table *)

Lemma insertSummary_sorted (a : CohortSummary) (l : list CohortSummary) :
  StronglySorted byAverageDesc l ->
  StronglySorted byAverageDesc (insertSummary a l).
Proof.
  induction l as [|b l IH]; simpl; intros Hs.
  - constructor; constructor.
  - apply StronglySorted_inv in Hs as [Hl Hb].
    destruct (Qle_bool (averageWeight b) (averageWeight a)) eqn:E.
    + apply Qle_bool_iff in E.
      constructor; [constructor; assumption |].
      constructor; [exact E |].
      eapply List.Forall_impl; [| exact Hb].
      intros x Hx. unfold byAverageDesc in *.
      eapply Qle_trans; eassumption.
    + constructor; [apply IH, Hl |].
      assert (Hab : byAverageDesc b a).
      { unfold byAverageDesc. apply Qlt_le_weak, Qnot_le_lt.
        intros H. apply Qle_bool_iff in H. congruence. }
      apply List.Forall_forall. intros x Hx.
      apply (Permutation_in _ (insertSummary_perm a l)) in Hx.
      destruct Hx as [<-|Hx]; [exact Hab |].
      apply (proj1 (List.Forall_forall _ _) Hb), Hx.
Qed.

(** X11: the summaries come out most complex first: every summary has
    an average weight at least that of every summary after it (averages
    compared as exact quotients). *)
Theorem summaries_sorted (results : list CohortResult.t) :
  StronglySorted byAverageDesc (generateCohortSummaries results).
Proof.
  unfold generateCohortSummaries, sortByAverageDesc.
  generalize (fold_left (fun summaries entry => summaries ++ [summaryOf entry])
                        (groupByCohort results) []) as l.
  induction l as [|a l IH]; simpl; [constructor |].
  apply insertSummary_sorted, IH.
Qed.

Lemma seenStep_in (l : list CohortResult.t) (ks : list string) (k : string) :
  In k (fold_left seenStep l ks) ->
  In k ks \/ exists r, In r l /\ CohortResult.cohort r = k.
Proof.
  revert ks. induction l as [|x l IH]; intros ks; simpl; [auto |].
  intros H. apply IH in H. destruct H as [H|(r & Hr & Hk)].
  - unfold seenStep in H. cbv zeta in H.
    destruct (existsb _ ks); [left; exact H |].
    apply in_app_or in H. destruct H as [H|[<-|[]]]; [left; exact H |].
    right. exists x. split; [left |]; reflexivity.
  - right. exists r. split; [right; exact Hr | exact Hk].
Qed.

Lemma cohortsSeen_in (results : list CohortResult.t) (k : string) :
  In k (cohortsSeen results) ->
  exists r, In r results /\ CohortResult.cohort r = k.
Proof.
  intros H. apply seenStep_in in H. destruct H as [[]|H]. exact H.
Qed.

(** Every summary is the summary of the results of one cohort that
    occurs in the input. *)
Lemma summary_of_cohort (results : list CohortResult.t) (s : CohortSummary) :
  In s (generateCohortSummaries results) ->
  exists k r,
    s = summaryOf (k, List.filter (inCohort k) results)
    /\ In r results /\ CohortResult.cohort r = k.
Proof.
  intros Hs.
  apply (Permutation_in _ (generateCohortSummaries_perm results)) in Hs.
  destruct (groupByCohort_entries results) as [Hg _].
  rewrite Hg, map_map in Hs. apply in_map_iff in Hs.
  destruct Hs as (k & <- & Hk).
  destruct (cohortsSeen_in results k Hk) as (r & Hr & Hrk).
  exists k, r. repeat split; assumption.
Qed.

(** X12: no summary is empty: every summary counts at least one
    repository, and its average weight is its total weight divided by its
    count; the zero-count branch of the average is never taken. *)
Theorem summaries_nonempty (results : list CohortResult.t) (s : CohortSummary) :
  In s (generateCohortSummaries results) ->
  (1 <= repositoryCount s)%nat
  /\ averageWeight s
     = Qdiv (inject_Z (totalWeight s)) (inject_Z (Z.of_nat (repositoryCount s))).
Proof.
  intros Hs. destruct (summary_of_cohort results s Hs) as (k & r & -> & Hr & Hk).
  assert (Hin : In r (List.filter (inCohort k) results)).
  { apply filter_In. split; [exact Hr |]. unfold inCohort. rewrite Hk.
    apply String.eqb_refl. }
  cbn [summaryOf repositoryCount averageWeight totalWeight].
  destruct (List.filter (inCohort k) results) as [|x l]; [destruct Hin |].
  split; [simpl; lia | reflexivity].
Qed.

Lemma summaries_nonempty_witness :
  (1 <= repositoryCount
          {| cohortName := "ARCHIVED"; repositoryCount := 1;
             totalWeight := 16; averageWeight := Qmake 16 1 |})%nat.
Proof.
  apply (summaries_nonempty (analyzeRepositories CONFIG Sample.table)).
  vm_compute. left. reflexivity.
Defined.

(** X13: the summary table of an analysis has at most nine rows, with
    distinct names taken from the cohort labels; under the configuration
    that ships no row is named UNMIGRATABLE. *)
Theorem summary_table_rows (cfg : Config) (data : LoadedData) :
  let table := generateCohortSummaries (analyzeRepositories cfg data) in
  (length table <= 9)%nat
  /\ NoDup (map cohortName table)
  /\ (forall s, In s table -> In (cohortName s) cohortLabels)
  /\ (forall s,
        In s (generateCohortSummaries (analyzeRepositories CONFIG data)) ->
        cohortName s <> "UNMIGRATABLE").
Proof.
  cbv zeta.
  assert (Hname : forall cfg' s,
             In s (generateCohortSummaries (analyzeRepositories cfg' data)) ->
             exists repo w, cohortName s = assignCohort cfg' repo w).
  { intros cfg' s Hs.
    destruct (summary_of_cohort _ s Hs) as (k & r & -> & Hr & Hk).
    rewrite analyzeRepositories_map in Hr. apply in_map_iff in Hr.
    destruct Hr as (repo & <- & _).
    exists repo, (calculateMigrationWeight cfg' repo).
    simpl. rewrite <- Hk. reflexivity. }
  assert (Hlabels : forall s,
             In s (generateCohortSummaries (analyzeRepositories cfg data)) ->
             In (cohortName s) cohortLabels).
  { intros s Hs. destruct (Hname cfg s Hs) as (repo & w & ->).
    unfold assignCohort, cohortLabels; split_steps; simpl; tauto. }
  destruct (summaries_by_cohort (analyzeRepositories cfg data)) as (_ & Hnd & _).
  split; [| split; [exact Hnd | split; [exact Hlabels |]]].
  - rewrite <- (length_map cohortName).
    change 9%nat with (length cohortLabels).
    apply List.NoDup_incl_length; [apply NoDup_ListNoDup, Hnd |].
    intros k Hk. apply in_map_iff in Hk. destruct Hk as (s & <- & Hs).
    apply Hlabels, Hs.
  - intros s Hs. destruct (Hname CONFIG s Hs) as (repo & w & ->).
    unfold assignCohort. simpl. split_steps; discriminate.
Qed.

(** ** Grouping by any key *)

Section GroupsBy.

Variable keyOf : CohortResult.t -> string.

Implicit Types (rs : list CohortResult.t) (ks : list string).

Lemma has_entries_by rs ks (k : string) :
  CohortMap.has (map (groupEntryBy keyOf rs) ks) k = existsb (fun k' => String.eqb k' k) ks.
Proof.
  unfold CohortMap.has.
  induction ks as [|k0 ks IH]; simpl; [reflexivity | rewrite IH; reflexivity].
Qed.

Lemma filter_snoc_by rs (k : string) (x : CohortResult.t) :
  List.filter (hasKey keyOf k) (rs ++ [x])
  = List.filter (hasKey keyOf k) rs ++ (if hasKey keyOf k x then [x] else []).
Proof. rewrite List.filter_app. simpl. destruct (hasKey keyOf k x); reflexivity. Qed.

Lemma hasKey_self (x : CohortResult.t) :
  hasKey keyOf (keyOf x) x = true.
Proof. apply String.eqb_refl. Qed.

Lemma hasKey_other (k : string) (x : CohortResult.t) :
  k <> keyOf x -> hasKey keyOf k x = false.
Proof. intros H. apply String.eqb_neq. congruence. Qed.

Lemma entry_other_by rs (k : string) (x : CohortResult.t) :
  k <> keyOf x -> groupEntryBy keyOf (rs ++ [x]) k = groupEntryBy keyOf rs k.
Proof.
  intros Hne. unfold groupEntryBy. rewrite filter_snoc_by.
  rewrite (hasKey_other k x Hne), app_nil_r. reflexivity.
Qed.

Lemma push_entries_by rs ks (x : CohortResult.t) :
  NoDup ks ->
  In (keyOf x) ks ->
  CohortMap.push (map (groupEntryBy keyOf rs) ks) (keyOf x) x
  = map (groupEntryBy keyOf (rs ++ [x])) ks.
Proof.
  induction ks as [|k0 ks IH]; intros Hnd Hin; [destruct Hin |].
  inversion Hnd as [|? ? Hk0 Hnd']; subst. simpl.
  destruct (String.eqb_spec k0 (keyOf x)) as [E|Hne].
  - f_equal.
    + subst k0. unfold groupEntryBy. rewrite filter_snoc_by, hasKey_self. reflexivity.
    + apply map_ext_in. intros k Hk. symmetry. apply entry_other_by.
      intros ->. apply Hk0, list_elem_of_In. rewrite E. exact Hk.
  - f_equal.
    + fold (groupEntryBy keyOf rs k0). symmetry. apply entry_other_by, Hne.
    + apply IH; [exact Hnd' |]. destruct Hin as [E|Hin]; [congruence | exact Hin].
Qed.

Lemma step_entries_by rs ks (x : CohortResult.t) :
  NoDup ks ->
  (forall r, In r rs -> In (keyOf r) ks) ->
  groupStepBy keyOf (map (groupEntryBy keyOf rs) ks) x = map (groupEntryBy keyOf (rs ++ [x])) (seenStepBy keyOf ks x)
  /\ NoDup (seenStepBy keyOf ks x)
  /\ (forall r, In r (rs ++ [x]) -> In (keyOf r) (seenStepBy keyOf ks x)).
Proof.
  intros Hnd Hcov. unfold groupStepBy, seenStepBy. cbv zeta. rewrite has_entries_by.
  destruct (existsb _ ks) eqn:E; simpl.
  - apply existsb_eqb_In in E.
    split; [apply push_entries_by; assumption |].
    split; [exact Hnd |].
    intros r Hr. apply in_app_or in Hr. destruct Hr as [Hr|[<-|[]]]; auto.
  - assert (Hfresh : ~ In (keyOf x) ks).
    { intros Hin. apply existsb_eqb_In in Hin. congruence. }
    assert (Hnd' : NoDup (ks ++ [keyOf x])).
    { apply NoDup_app. split; [exact Hnd |]. split.
      - intros k Hk Hk'. apply list_elem_of_In in Hk, Hk'.
        destruct Hk' as [<-|[]]. contradiction.
      - apply NoDup_singleton. }
    assert (Hempty : List.filter (hasKey keyOf (keyOf x)) rs = []).
    { clear -Hcov Hfresh. induction rs as [|r rs IH]; simpl; [reflexivity |].
      rewrite hasKey_other.
      - apply IH. intros r' Hr'. apply Hcov. right. exact Hr'.
      - intros E. apply Hfresh. rewrite E. apply Hcov. left. reflexivity. }
    split.
    + rewrite set_fresh by (rewrite has_entries_by; exact E).
      replace (map (groupEntryBy keyOf rs) ks ++ [(keyOf x, [])])
        with (map (groupEntryBy keyOf rs) (ks ++ [keyOf x])).
      * apply push_entries_by; [exact Hnd' |]. apply in_or_app. right. left. reflexivity.
      * rewrite map_app. simpl. unfold groupEntryBy at 2. rewrite Hempty. reflexivity.
    + split; [exact Hnd' |].
      intros r Hr. apply in_or_app. apply in_app_or in Hr.
      destruct Hr as [Hr|[<-|[]]]; [left; auto | right; left; reflexivity].
Qed.

Lemma loop_entries_by (l : list CohortResult.t) rs ks :
  NoDup ks ->
  (forall r, In r rs -> In (keyOf r) ks) ->
  fold_left (groupStepBy keyOf) l (map (groupEntryBy keyOf rs) ks)
  = map (groupEntryBy keyOf (rs ++ l)) (fold_left (seenStepBy keyOf) l ks)
  /\ NoDup (fold_left (seenStepBy keyOf) l ks).
Proof.
  revert rs ks. induction l as [|x l IH]; intros rs ks Hnd Hcov; simpl.
  - rewrite app_nil_r. split; [reflexivity | exact Hnd].
  - destruct (step_entries_by rs ks x Hnd Hcov) as (Hstep & Hnd' & Hcov').
    rewrite Hstep.
    replace (rs ++ x :: l) with ((rs ++ [x]) ++ l)
      by (rewrite <- app_assoc; reflexivity).
    apply IH; assumption.
Qed.

(** A grouping loop builds one entry per key seen, in the order of first
    occurrence, holding the results of that key in input order. *)
Lemma groupBy_entries rs :
  fold_left (groupStepBy keyOf) rs []
  = map (fun k => (k, List.filter (hasKey keyOf k) rs)) (keysSeenBy keyOf rs)
  /\ NoDup (keysSeenBy keyOf rs).
Proof.
  destruct (loop_entries_by rs [] []) as [H Hnd];
    [apply NoDup_nil_2 | intros r [] |].
  split; [exact H | exact Hnd].
Qed.

Lemma seenStepBy_in (l : list CohortResult.t) ks (k : string) :
  In k (fold_left (seenStepBy keyOf) l ks) ->
  In k ks \/ exists r, In r l /\ keyOf r = k.
Proof.
  revert ks. induction l as [|x l IH]; intros ks; simpl; [auto |].
  intros H. apply IH in H. destruct H as [H|(r & Hr & Hk)].
  - unfold seenStepBy in H. cbv zeta in H.
    destruct (existsb _ ks); [left; exact H |].
    apply in_app_or in H. destruct H as [H|[<-|[]]]; [left; exact H |].
    right. exists x. split; [left |]; reflexivity.
  - right. exists r. split; [right; exact Hr | exact Hk].
Qed.

Lemma keysSeenBy_covers (l : list CohortResult.t) ks (r : CohortResult.t) :
  In r l \/ In (keyOf r) ks -> In (keyOf r) (fold_left (seenStepBy keyOf) l ks).
Proof.
  revert ks. induction l as [|x l IH]; intros ks; simpl.
  - intros [[]|H]. exact H.
  - intros H. apply IH. unfold seenStepBy. cbv zeta.
    destruct (existsb _ ks) eqn:E.
    + destruct H as [[->|H]|H]; [right | left | right]; try assumption.
      apply existsb_eqb_In, E.
    + destruct H as [[->|H]|H]; [right | left | right]; try assumption;
        apply in_or_app; [right; left; reflexivity | left; exact H].
Qed.

Lemma group_step_by (m : CohortMap.t) (x : CohortResult.t) :
  Permutation (concat (map snd (groupStepBy keyOf m x)))
              (x :: concat (map snd m)).
Proof.
  unfold groupStepBy. cbv zeta.
  destruct (CohortMap.has m (keyOf x)) eqn:E; simpl.
  - apply contents_push, E.
  - rewrite contents_push by apply has_set.
    rewrite contents_set_fresh by exact E. reflexivity.
Qed.

Lemma group_loop_by (results : list CohortResult.t) (m : CohortMap.t) :
  Permutation (concat (map snd (fold_left (groupStepBy keyOf) results m)))
              (concat (map snd m) ++ results).
Proof.
  revert m. induction results as [|x results IH]; intros m; simpl.
  - rewrite app_nil_r. reflexivity.
  - rewrite IH, group_step_by.
    apply (Permutation_middle (concat (map snd m)) results x).
Qed.

End GroupsBy.

(** ** Enterprise summaries *)

Section Enterprise.

Variable localeCompare : string -> string -> Z.

Lemma insertEnterprise_perm (a : EnterpriseCohortSummary.t)
    (l : list EnterpriseCohortSummary.t) :
  Permutation (insertEnterprise localeCompare a l) (a :: l).
Proof.
  induction l as [|b l IH]; simpl; [reflexivity |].
  destruct (_ <=? 0); [reflexivity |].
  rewrite IH. apply perm_swap.
Qed.

Lemma sortByEnterpriseName_perm (l : list EnterpriseCohortSummary.t) :
  Permutation (sortByEnterpriseName localeCompare l) l.
Proof.
  induction l as [|a l IH]; simpl; [reflexivity |].
  rewrite insertEnterprise_perm, IH. reflexivity.
Qed.

(** The enterprise summaries are the summaries of the groups, reordered. *)
Lemma generateEnterpriseCohortSummaries_perm (results : list CohortResult.t) :
  Permutation
    (generateEnterpriseCohortSummaries localeCompare results)
    (map (fun k => enterpriseSummaryOf
                     (k, List.filter (hasKey enterpriseOf k) results))
         (keysSeenBy enterpriseOf results)).
Proof.
  unfold generateEnterpriseCohortSummaries.
  rewrite sortByEnterpriseName_perm.
  rewrite (fold_left_push_map enterpriseSummaryOf (groupByEnterprise results) []).
  unfold groupByEnterprise.
  destruct (groupBy_entries enterpriseOf results) as [-> _].
  rewrite map_map. reflexivity.
Qed.

End Enterprise.

Lemma enterpriseTotalCount_perm (l1 l2 : list EnterpriseCohortSummary.t) :
  Permutation l1 l2 -> enterpriseTotalCount l1 = enterpriseTotalCount l2.
Proof. induction 1; simpl; lia. Qed.

Lemma enterpriseTotalWeight_perm (l1 l2 : list EnterpriseCohortSummary.t) :
  Permutation l1 l2 -> enterpriseTotalWeight l1 = enterpriseTotalWeight l2.
Proof. induction 1; simpl; lia. Qed.

Lemma enterprise_totals_of_groups (m : CohortMap.t) :
  enterpriseTotalCount (map enterpriseSummaryOf m) = length (concat (map snd m))
  /\ enterpriseTotalWeight (map enterpriseSummaryOf m)
     = weightSum (concat (map snd m)).
Proof.
  induction m as [|[k arr] m [IHc IHw]]; simpl; [split; reflexivity |].
  rewrite IHc, IHw, length_app, weightSum_app, fold_left_weight.
  split; [reflexivity | lia].
Qed.

(** The totals of the cohort summaries of any list of results. *)
Lemma cohort_totals (results : list CohortResult.t) :
  totalCount (generateCohortSummaries results) = length results
  /\ totalWeightSum (generateCohortSummaries results) = weightSum results.
Proof.
  destruct (summaries_totals (groupByCohort results)) as [Hc Hw].
  pose proof (generateCohortSummaries_perm results) as Hp.
  pose proof (groupByCohort_partition results) as Hg.
  split.
  - rewrite (totalCount_perm _ _ Hp), Hc. apply Permutation_length, Hg.
  - rewrite (totalWeightSum_perm _ _ Hp), Hw. apply weightSum_perm, Hg.
Qed.

(** X14: whatever the collation, the enterprise summaries account for
    every result once: their repository counts add up to the number of
    results and their total weights to the sum of the weights; every
    enterprise summary has at least one repository, and its cohort
    breakdown adds up to its own count and total weight. *)
Theorem enterprise_totals (localeCompare : string -> string -> Z)
    (results : list CohortResult.t) :
  let table := generateEnterpriseCohortSummaries localeCompare results in
  enterpriseTotalCount table = length results
  /\ enterpriseTotalWeight table = weightSum results
  /\ (forall e, In e table ->
        (1 <= EnterpriseCohortSummary.totalRepositories e)%nat
        /\ totalCount (EnterpriseCohortSummary.cohortSummaries e)
           = EnterpriseCohortSummary.totalRepositories e
        /\ totalWeightSum (EnterpriseCohortSummary.cohortSummaries e)
           = EnterpriseCohortSummary.totalWeight e).
Proof.
  cbv zeta.
  pose proof (generateEnterpriseCohortSummaries_perm localeCompare results) as Hp.
  destruct (groupBy_entries enterpriseOf results) as [Hg _].
  pose proof (group_loop_by enterpriseOf results []) as Hall. simpl in Hall.
  destruct (enterprise_totals_of_groups
              (fold_left (groupStepBy enterpriseOf) results [])) as [Hc Hw].
  assert (Hp' : Permutation
                  (generateEnterpriseCohortSummaries localeCompare results)
                  (map enterpriseSummaryOf
                     (fold_left (groupStepBy enterpriseOf) results []))).
  { rewrite Hp, Hg, map_map. reflexivity. }
  split; [| split].
  - rewrite (enterpriseTotalCount_perm _ _ Hp'), Hc.
    apply Permutation_length, Hall.
  - rewrite (enterpriseTotalWeight_perm _ _ Hp'), Hw.
    apply weightSum_perm, Hall.
  - intros e He. apply (Permutation_in _ Hp) in He.
    apply in_map_iff in He. destruct He as (k & <- & Hk).
    cbn [enterpriseSummaryOf EnterpriseCohortSummary.totalRepositories
         EnterpriseCohortSummary.cohortSummaries
         EnterpriseCohortSummary.totalWeight].
    destruct (cohort_totals (List.filter (hasKey enterpriseOf k) results))
      as [Hcc Hcw].
    rewrite fold_left_weight.
    split; [| split; [exact Hcc | rewrite Hcw; lia]].
    apply seenStepBy_in in Hk. destruct Hk as [[]|(r & Hr & Hrk)].
    assert (Hin : In r (List.filter (hasKey enterpriseOf k) results)).
    { apply filter_In. split; [exact Hr |]. unfold hasKey. rewrite Hrk.
      apply String.eqb_refl. }
    destruct (List.filter (hasKey enterpriseOf k) results); [destruct Hin |].
    simpl. lia.
Qed.

Lemma enterprise_totals_witness :
  enterpriseTotalCount
    (generateEnterpriseCohortSummaries byteCompare
       (analyzeRepositories CONFIG Sample.table)) = 3%nat
  /\ enterpriseTotalWeight
       (generateEnterpriseCohortSummaries byteCompare
          (analyzeRepositories CONFIG Sample.table)) = 26.
Proof.
  destruct (enterprise_totals byteCompare (analyzeRepositories CONFIG Sample.table))
    as (Hc & Hw & _).
  split; [exact Hc | exact Hw].
Defined.

Lemma enterpriseOf_unknown (r : CohortResult.t) :
  enterpriseOf r = "Unknown"
  <-> CohortResult.enterpriseName r = None
      \/ CohortResult.enterpriseName r = Some ""
      \/ CohortResult.enterpriseName r = Some "Unknown".
Proof.
  unfold enterpriseOf, orDefault.
  destruct (CohortResult.enterpriseName r) as [s|]; [| tauto].
  destruct (String.eqb_spec s "") as [->|Hne].
  - tauto.
  - split.
    + intros ->. tauto.
    + intros [H|[H|H]]; try discriminate H; injection H as ->;
        [congruence | reflexivity].
Qed.

(** X15: whatever the collation, there is one enterprise summary per
    enterprise name, and it holds the results of that name: their number,
    the sum of their weights and their cohort summaries.  Every result is
    counted under its enterprise name, and under [Unknown] when the name is
    missing or empty, together with the results of an enterprise that is
    itself named [Unknown]. *)
Theorem enterprise_buckets (localeCompare : string -> string -> Z)
    (results : list CohortResult.t) :
  let table := generateEnterpriseCohortSummaries localeCompare results in
  NoDup (map EnterpriseCohortSummary.enterpriseName table)
  /\ (forall e, In e table ->
        let mine :=
          List.filter (hasKey enterpriseOf (EnterpriseCohortSummary.enterpriseName e))
                      results in
        EnterpriseCohortSummary.totalRepositories e = length mine
        /\ EnterpriseCohortSummary.totalWeight e = weightSum mine
        /\ EnterpriseCohortSummary.cohortSummaries e = generateCohortSummaries mine)
  /\ (forall r, In r results ->
        exists e, In e table
                  /\ EnterpriseCohortSummary.enterpriseName e = enterpriseOf r)
  /\ (forall r, enterpriseOf r = "Unknown"
                <-> CohortResult.enterpriseName r = None
                    \/ CohortResult.enterpriseName r = Some ""
                    \/ CohortResult.enterpriseName r = Some "Unknown").
Proof.
  cbv zeta.
  pose proof (generateEnterpriseCohortSummaries_perm localeCompare results) as Hp.
  destruct (groupBy_entries enterpriseOf results) as [_ Hnd].
  split; [| split; [| split]].
  - apply NoDup_ListNoDup. rewrite Hp, map_map. simpl. rewrite map_id.
    apply NoDup_ListNoDup, Hnd.
  - intros e He. apply (Permutation_in _ Hp) in He.
    apply in_map_iff in He. destruct He as (k & <- & _). simpl.
    rewrite fold_left_weight. repeat split; lia.
  - intros r Hr.
    assert (Hk : In (enterpriseOf r) (keysSeenBy enterpriseOf results)).
    { apply keysSeenBy_covers. left. exact Hr. }
    exists (enterpriseSummaryOf
              (enterpriseOf r,
               List.filter (hasKey enterpriseOf (enterpriseOf r)) results)).
    split; [| reflexivity].
    apply (Permutation_in _ (Permutation_sym Hp)).
    apply in_map_iff. exists (enterpriseOf r). split; [reflexivity | exact Hk].
  - apply enterpriseOf_unknown.
Qed.

(** ** Order of the input *)

Lemma filter_perm_length {A : Type} (f : A -> bool) (l l' : list A) :
  Permutation l l' -> length (List.filter f l) = length (List.filter f l').
Proof.
  induction 1 as [|x l l' _ IH|x y l|l l' l'' _ IH1 _ IH2]; simpl.
  - reflexivity.
  - destruct (f x); simpl; rewrite IH; reflexivity.
  - destruct (f x), (f y); reflexivity.
  - rewrite IH1. exact IH2.
Qed.

Lemma filter_perm_weight (f : CohortResult.t -> bool) (l l' : list CohortResult.t) :
  Permutation l l' -> weightSum (List.filter f l) = weightSum (List.filter f l').
Proof.
  induction 1 as [|x l l' _ IH|x y l|l l' l'' _ IH1 _ IH2]; simpl.
  - reflexivity.
  - destruct (f x); simpl; rewrite IH; reflexivity.
  - destruct (f x), (f y); simpl; lia.
  - rewrite IH1. exact IH2.
Qed.

Lemma summaryOf_totals (k : string) (l l' : list CohortResult.t) :
  length l = length l' -> weightSum l = weightSum l' ->
  summaryOf (k, l) = summaryOf (k, l').
Proof.
  intros Hlen Hw. unfold summaryOf.
  rewrite !fold_left_weight, Hlen, Hw. reflexivity.
Qed.

Lemma cohortsSeen_covers (results : list CohortResult.t) (r : CohortResult.t) :
  In r results -> In (CohortResult.cohort r) (cohortsSeen results).
Proof.
  intros Hr.
  apply (keysSeenBy_covers CohortResult.cohort results [] r). left. exact Hr.
Qed.

Lemma summary_in (results : list CohortResult.t) (k : string) :
  In k (cohortsSeen results) ->
  In (summaryOf (k, List.filter (inCohort k) results))
     (generateCohortSummaries results).
Proof.
  intros Hk.
  apply (Permutation_in _ (Permutation_sym (generateCohortSummaries_perm results))).
  destruct (groupByCohort_entries results) as [-> _].
  rewrite map_map. apply in_map_iff. exists k. split; [reflexivity | exact Hk].
Qed.

Lemma summaries_incl (results results' : list CohortResult.t) (s : CohortSummary) :
  Permutation results results' ->
  In s (generateCohortSummaries results) ->
  In s (generateCohortSummaries results').
Proof.
  intros Hp Hs.
  destruct (summary_of_cohort results s Hs) as (k & r & -> & Hr & Hk).
  rewrite (summaryOf_totals k _ (List.filter (inCohort k) results')).
  - apply summary_in. rewrite <- Hk. apply cohortsSeen_covers.
    apply (Permutation_in _ Hp), Hr.
  - apply filter_perm_length, Hp.
  - apply filter_perm_weight, Hp.
Qed.

Lemma summaries_NoDup (results : list CohortResult.t) :
  List.NoDup (generateCohortSummaries results).
Proof.
  destruct (summaries_by_cohort results) as (_ & Hnd & _).
  apply NoDup_ListNoDup in Hnd.
  apply (List.NoDup_map_inv cohortName), Hnd.
Qed.

(** X16: the rows of the summary table do not depend on the order of
    the results: reordering the input gives the same summaries (name,
    count, total and average), possibly in another order. *)
Theorem summaries_order_independent (results results' : list CohortResult.t) :
  Permutation results results' ->
  Permutation (generateCohortSummaries results)
              (generateCohortSummaries results').
Proof.
  intros Hp.
  apply NoDup_Permutation; [apply NoDup_ListNoDup, summaries_NoDup .. |].
  intros s. rewrite !list_elem_of_In.
  split; apply summaries_incl; [exact Hp | symmetry; exact Hp].
Qed.

Lemma summaries_order_independent_witness :
  Permutation
    (generateCohortSummaries (analyzeRepositories CONFIG Sample.table))
    (generateCohortSummaries (rev (analyzeRepositories CONFIG Sample.table))).
Proof.
  apply (summaries_order_independent
           (analyzeRepositories CONFIG Sample.table)
           (rev (analyzeRepositories CONFIG Sample.table))).
  apply Permutation_rev.
Defined.

(** ** The guards of [toNumber] *)

Lemma trimStart_head (v : string) (c : ascii) (r : string) :
  JS.trimStart v = String c r -> JS.isStrWhiteSpaceChar c = false.
Proof.
  induction v as [|c0 v IH]; simpl; [discriminate |].
  destruct (JS.isStrWhiteSpaceChar c0) eqn:E; [exact IH |].
  intros H. injection H as -> _. exact E.
Qed.

Lemma trim_empty (v : string) : JS.trim v = "" -> JS.trimStart v = "".
Proof.
  unfold JS.trim. destruct (JS.trimStart v) as [|c r] eqn:E; [reflexivity |].
  apply trimStart_head in E. simpl. rewrite E. simpl. discriminate.
Qed.

Lemma parseInt_blank (v : string) : JS.trimStart v = "" -> JS.parseInt v = None.
Proof. intros H. unfold JS.parseInt. rewrite H. reflexivity. Qed.

Lemma trimStart_app (ws v : string) :
  JS.trimStart ws = "" -> JS.trimStart (ws +:+ v) = JS.trimStart v.
Proof.
  induction ws as [|c ws IH]; simpl; [reflexivity |].
  destruct (JS.isStrWhiteSpaceChar c); [exact IH | discriminate].
Qed.

Lemma toNumber_as_parseInt (v : string) :
  toNumber (Some v) = match JS.parseInt v with Some n => n | None => 0 end.
Proof.
  unfold toNumber.
  destruct (String.eqb_spec v "") as [->|_]; [reflexivity |].
  destruct (String.eqb_spec (JS.trim v) "") as [E|_].
  { rewrite parseInt_blank by (apply trim_empty, E). reflexivity. }
  destruct (String.eqb_spec v "null") as [->|_]; [reflexivity |].
  destruct (String.eqb_spec v "undefined") as [->|_]; reflexivity.
Qed.

(** X17: white space in front of a count never changes the number
    read, and the values [toNumber] sets apart (empty, blank, ["null"],
    ["undefined"]) are cases in which [parseInt] reads no number: the
    result is always the number [parseInt] reads, or 0 when it reads
    none. *)
Theorem toNumber_leading_space (ws v : string) :
  JS.trimStart ws = "" ->
  toNumber (Some (ws +:+ v)) = toNumber (Some v)
  /\ toNumber (Some v) = match JS.parseInt v with Some n => n | None => 0 end.
Proof.
  intros Hws. split; [| apply toNumber_as_parseInt].
  rewrite !toNumber_as_parseInt. unfold JS.parseInt.
  rewrite trimStart_app by exact Hws. reflexivity.
Qed.

Lemma toNumber_leading_space_witness :
  toNumber (Some ("  " +:+ "7")) = toNumber (Some "7").
Proof. apply (toNumber_leading_space "  " "7"). reflexivity. Defined.
